(** * CODH character shapes dataset: a model of [codh/char_shapes.py]

    The development follows the Python module [codh.char_shapes]:
    the string and path helpers the class relies on ([str.format],
    [str.rpartition], [str.replace], [os.path.join], [os.path.basename]),
    the directory walk [os.walk], and then the methods of [CharShapes]
    in the order of the source: [__len__], [__getitem__], [classes],
    [_check_integrity], [download], [load_img_list],
    [get_characters_dir].  Definitions come first, theorems after. *)

From Stdlib Require Import ZArith Lia Ascii String List.
From Stdlib.Strings Require Import Byte.
From stdpp Require Import base option list gmap sets strings.

Local Open Scope string_scope.
Local Open Scope list_scope.

(** ** Strings, as Python's [str] methods used by the module *)

Module PyStr.

(** ['/'] *)
Definition sep : ascii := "/"%char.

(** [sub in s]: some suffix of [s] starts with [sub]. *)
Fixpoint contains (sub s : string) : bool :=
  if String.prefix sub s then true
  else match s with
       | EmptyString => false
       | String _ rest => contains sub rest
       end.

(** [s.startswith('/')] *)
Definition startswith_sep (s : string) : bool :=
  match s with
  | String c _ => Ascii.eqb c sep
  | EmptyString => false
  end.

(** [s.endswith('/')] *)
Fixpoint endswith_sep (s : string) : bool :=
  match s with
  | EmptyString => false
  | String c EmptyString => Ascii.eqb c sep
  | String _ rest => endswith_sep rest
  end.

(** The text after the last ['/'] of [s]; [acc] is the text after the
    last ['/'] seen so far.  This is [s.rpartition('/')[2]], and also
    [s[s.rfind('/') + 1:]]. *)
Fixpoint after_last_sep (acc s : string) : string :=
  match s with
  | EmptyString => acc
  | String c rest =>
      if Ascii.eqb c sep then after_last_sep rest rest
      else after_last_sep acc rest
  end.

Definition rpartition_sep_2 (s : string) : string := after_last_sep s s.

(** [n] characters dropped from the front. *)
Fixpoint drop_chars (n : nat) (s : string) : string :=
  match n, s with
  | O, _ => s
  | S n', String _ rest => drop_chars n' rest
  | S _, EmptyString => EmptyString
  end.

(** [s.replace(old, new)] for a non-empty [old]: every occurrence,
    scanning left to right, occurrences not overlapping.  [fuel] bounds
    the scan and is the length of [s] plus one. *)
Fixpoint replace_fuel (fuel : nat) (old new s : string) : string :=
  match fuel with
  | O => s
  | S fuel' =>
      match s with
      | EmptyString => EmptyString
      | String c rest =>
          if String.prefix old s
          then new +:+ replace_fuel fuel' old new (drop_chars (String.length old) s)
          else String c (replace_fuel fuel' old new rest)
      end
  end.

Definition replace (old new s : string) : string :=
  replace_fuel (S (String.length s)) old new s.

End PyStr.

(** ** [os.path] (posixpath) *)

Module OsPath.

(** [os.path.join(a, b)] *)
Definition join (a b : string) : string :=
  if PyStr.startswith_sep b then b
  else if String.eqb a "" || PyStr.endswith_sep a then a +:+ b
  else a +:+ "/" +:+ b.

(** [os.path.join(a, b, c)] *)
Definition join3 (a b c : string) : string := join (join a b) c.

(** [os.path.basename(p)] *)
Definition basename (p : string) : string := PyStr.after_last_sep p p.

End OsPath.

(** ** Directory trees and [os.walk] *)

(** An entry of a directory: a file, or a directory with its own
    entries in the order [os.scandir] lists them. *)
#[warnings="-register-all"]
Inductive node : Type :=
| File (name : string)
| Dir (name : string) (entries : list node).

Definition node_name (n : node) : string :=
  match n with File s => s | Dir s _ => s end.

Definition is_dir (n : node) : bool :=
  match n with Dir _ _ => true | File _ => false end.

Definition dir_entries (n : node) : list node :=
  match n with Dir _ es => es | File _ => [] end.

(** The sub-directories of a listing, and the names of its files. *)
Definition subdirs (es : list node) : list node := List.filter is_dir es.

Definition filenames_of (es : list node) : list string :=
  map node_name (List.filter (fun n => negb (is_dir n)) es).

(** What [os.walk] yields for one directory: [(dirpath, dirnames,
    filenames)].  Each name of [dirnames] is kept together with the
    directory it names, so that a path built from it can be walked
    again; the file system does not change between two walks. *)
Abbreviation walk_item := (string * list node * list string)%type.

(** [os.walk(top)], top-down: the directory itself, then the walk of
    each sub-directory in listing order. *)
Fixpoint walk_sub (top : string) (n : node) : list walk_item :=
  match n with
  | File _ => []
  | Dir name es =>
      let p := OsPath.join top name in
      (p, subdirs es, filenames_of es) :: flat_map (walk_sub p) es
  end.

Definition os_walk (top : string) (es : list node) : list walk_item :=
  (top, subdirs es, filenames_of es) :: flat_map (walk_sub top) es.

(** ** The index: [get_characters_dir] and [load_img_list] *)

(** [raw_folder = 'raw'] *)
Definition raw_folder : string := "raw".

(** One element of [img_list]: the dict
    [{'image_path': ..., 'code_point': ...}]. *)
Record img_info : Type := mk_img_info {
  image_path : string;
  code_point : string
}.

(** A path of [chars_dirs] with the directory it names. *)
Abbreviation char_dir := (string * list node)%type.

(** [CharShapes.get_characters_dir(data_dir)]; [es] lists [data_dir]. *)
Definition get_characters_dir (data_dir : string) (es : list node) : list char_dir :=
  fold_left
    (fun chars_dirs '(dirname, dirnames, _) =>
       fold_left
         (fun chars_dirs sub =>
            if PyStr.contains "U+" (node_name sub)
            then chars_dirs ++ [(OsPath.join dirname (node_name sub), dir_entries sub)]
            else chars_dirs)
         dirnames chars_dirs)
    (os_walk data_dir es) [].

(** The two loops of [load_img_list]: the lists [images_with_labels]
    and [classes] after the walk of every directory of [chars_dirs]. *)
Definition load_loops (chars_dirs : list char_dir) : list img_info * list string :=
  fold_left
    (fun acc '(char_dir, es) =>
       fold_left
         (fun '(images_with_labels, classes) '(dirname, _, filenames) =>
            let label := OsPath.basename dirname in
            let classes := classes ++ [label] in
            (fold_left
               (fun images_with_labels filename =>
                  images_with_labels ++
                    [{| image_path := OsPath.join dirname filename;
                        code_point := label |}])
               filenames images_with_labels,
             classes))
         (os_walk char_dir es) acc)
    chars_dirs ([], []).

(** [CharShapes.load_img_list()]: [root] is [self.root] and [es] lists
    the raw folder.  [list(set(classes))] keeps one copy of each label,
    in an order the language does not fix; the order of [elements] stands
    for it and no statement below depends on it. *)
Definition load_img_list (root : string) (es : list node) : list img_info * list string :=
  let raw_path := OsPath.join root raw_folder in
  let chars_dirs := get_characters_dir raw_path es in
  let '(images_with_labels, classes) := load_loops chars_dirs in
  (images_with_labels, elements (list_to_set classes : gset string)).

(** ** The accessor: [__init__], [__len__], [__getitem__], [classes] *)

(** What a method call raises. *)
Inductive exn : Type :=
| IndexError                      (* list index out of range *)
| DecodeError (path : string)     (* [io.imread] failed on this path *)
| KeyError (key : string)         (* a key missing from [zips_md5] *)
| URLError (url : string)         (* [urlopen] failed *)
| BadZipFile (path : string)      (* [zipfile] could not extract *)
| OSError (path : string).        (* [os.makedirs] failed, other than [EEXIST];
                                     or the file to open is not there *)

Inductive result (A : Type) : Type :=
| Ok (a : A)
| Raise (e : exn).
Arguments Ok {A} a.
Arguments Raise {A} e.

(** [l[idx]] on a Python list: a negative index counts from the end,
    and an index outside [-len(l) .. len(l) - 1] raises [IndexError]. *)
Definition list_getitem {A : Type} (l : list A) (idx : Z) : result A :=
  let n := Z.of_nat (length l) in
  let i := if (idx <? 0)%Z then (idx + n)%Z else idx in
  if ((i <? 0) || (n <=? i))%Z then Raise IndexError
  else match l !! Z.to_nat i with
       | Some x => Ok x
       | None => Raise IndexError
       end.

Section Accessor.

(** The decoded raster image, and [skimage.io.imread]: [None] when
    the file at the path does not decode. *)
Context {Image : Type}.
Variable imread : string -> option Image.

(** The dict [{'image': ..., 'code_point': ...}]. *)
Record sample : Type := mk_sample {
  sample_image : Image;
  sample_code_point : string
}.

(** The attributes of a [CharShapes] object.  [None] is Python's
    [None]; a callable is truthy. *)
Record CharShapes : Type := mk_CharShapes {
  root : string;
  transform : option (sample -> sample);
  target_transform : option (string -> string);
  img_list : list img_info;
  classes_list : list string
}.

(** [CharShapes.__init__], from the point where the raw folder lists
    [raw]: [download=True] only changes the file system beforehand
    (see [download] below). *)
Definition init (root : string) (transform : option (sample -> sample))
    (target_transform : option (string -> string)) (raw : list node) : CharShapes :=
  let '(img_list, classes_list) := load_img_list root raw in
  {| root := root;
     transform := transform;
     target_transform := target_transform;
     img_list := img_list;
     classes_list := classes_list |}.

(** [CharShapes.__len__] *)
Definition len (self : CharShapes) : nat := length (img_list self).

(** Lines 86 to 92 of [__getitem__], once [img_info] is in hand. *)
Definition build_sample (self : CharShapes) (info : img_info) : result sample :=
  match imread (image_path info) with
  | None => Raise (DecodeError (image_path info))
  | Some image =>
      let sample := {| sample_image := image;
                       sample_code_point := code_point info |} in
      match transform self with
      | Some f => Ok (f sample)
      | None => Ok sample
      end
  end.

(** [CharShapes.__getitem__] *)
Definition getitem (self : CharShapes) (idx : Z) : result sample :=
  match list_getitem (img_list self) idx with
  | Raise e => Raise e
  | Ok img_info => build_sample self img_info
  end.

(** [CharShapes.classes] *)
Definition classes (self : CharShapes) : list string := classes_list self.

End Accessor.

Arguments sample : clear implicits.
Arguments CharShapes : clear implicits.

(** ** The catalog *)

(** [download_url_format.format(book_id, book_id)] *)
Definition download_url (book_id : string) : string :=
  "http://codh.rois.ac.jp/char-shape/book/" +:+ book_id +:+ "/" +:+ book_id +:+ ".zip".

Definition book_ids : list string :=
  [ "200003076"; "200003967"; "200014740"; "200021637"; "200021660";
    "200021712"; "200021763"; "200021802"; "200021851"; "200021853";
    "200021869"; "200021925"; "200022050"; "brsk00000"; "hnsd00000" ].

Definition zips_md5 : gmap string string :=
  list_to_map
    [ ("200021660.zip", "472edecf9ebb1aa73937ad298a0664a1");
      ("200003967.zip", "fa3100fd0da6a670c0e63aeeedef8e5c");
      ("200021925.zip", "e1f6a57bfea7f2203dc367045df6f614");
      ("200021712.zip", "c516c4b44782ebec6915d6862b7a1c7b");
      ("brsk00000.zip", "b52a20509e391650b6532484aae4e191");
      ("hnsd00000.zip", "208956eeea1a37a231dfb2dba6cc0608");
      ("200014740.zip", "4a8ded7745a8447577c98205fc9ba7a7");
      ("200003076.zip", "46571ea44b897d335fc8968ad8c496de");
      ("200022050.zip", "fd62690aa1cd9ab1380d8782f6dc5f76");
      ("200021802.zip", "4d15096d97e95b219a6ba0d60da046a8");
      ("200021869.zip", "5ebba23cf69b49ddee5abac9361d305c");
      ("200021637.zip", "2c238dc7bf696a20d116c1023c38e00f");
      ("200021853.zip", "3224bd91ae222d15ccbe04948bff5dd5");
      ("200021763.zip", "df364b6e775f9f85b55b7aadd8f64e71");
      ("200021851.zip", "0c4b941c41b0f501c235795d95ef8252") ].

(** ** [hashlib.md5] and [_check_integrity] *)

(** The digest object of [hashlib]: [update] called on one piece after
    another digests their concatenation. *)
Class Hashlib : Type := {
  md5_state : Type;
  md5_new : md5_state;
  md5_update : md5_state -> list byte -> md5_state;
  md5_hexdigest : md5_state -> string;
  md5_update_nil : forall s, md5_update s [] = s;
  md5_update_app : forall s a b,
    md5_update (md5_update s a) b = md5_update s (a ++ b)
}.

(** The MD5 hex digest of a whole content. *)
Definition md5_hex `{Hashlib} (content : list byte) : string :=
  md5_hexdigest (md5_update md5_new content).

(** [1024 * 1024] *)
Definition chunk_size : N := 1024 * 1024.

(** [f.read(n)] on what is left of the file: the bytes read, and what
    is left after them. *)
Fixpoint read_bytes (n : N) (rest : list byte) : list byte :=
  match rest with
  | [] => []
  | b :: rest' => if (n =? 0)%N then [] else b :: read_bytes (N.pred n) rest'
  end.

Fixpoint skip_bytes (n : N) (rest : list byte) : list byte :=
  match rest with
  | [] => []
  | _ :: rest' => if (n =? 0)%N then rest else skip_bytes (N.pred n) rest'
  end.

(** [iter(lambda: f.read(1024 * 1024), b'')]: the chunks read until
    [read] returns [b''].  Every chunk but the last takes [chunk_size]
    bytes, so [fuel] above the length of the content reads it all. *)
Fixpoint read_chunks (fuel : nat) (content : list byte) : list (list byte) :=
  match fuel with
  | O => []
  | S fuel' =>
      match read_bytes chunk_size content with
      | [] => []
      | chunk => chunk :: read_chunks fuel' (skip_bytes chunk_size content)
      end
  end.

Definition file_chunks (content : list byte) : list (list byte) :=
  read_chunks (S (length content)) content.

(** The regular files of the file system, by path. *)
Abbreviation file_store := (gmap string (list byte)).

(** [CharShapes._check_integrity(fpath, md5)] *)
Definition check_integrity `{Hashlib} (files : file_store) (fpath md5 : string) : bool :=
  match files !! fpath with
  | None => false                                     (* not os.path.isfile *)
  | Some content =>
      let md5o := fold_left md5_update (file_chunks content) md5_new in
      let md5c := md5_hexdigest md5o in
      if negb (String.eqb md5c md5) then false else true
  end.

(** ** The file system and the network seen by [download] *)

(** What [download] does to the outside, in the order it does it. *)
Inductive event : Type :=
| Urlopen (url : string)                      (* a request sent to the remote host *)
| Read (url : string)                         (* the body of the response read *)
| Print (msg : string)
| WriteFile (path : string) (content : list byte)
| ExtractAll (archive target_dir : string)
| Unlink (path : string).

Record world : Type := mk_world {
  files : file_store;        (* regular files *)
  dirs : gset string;        (* directories made by [os.makedirs] *)
  trace : list event         (* oldest event first *)
}.

(** The remote host, the archive format and the permissions of the
    file system: [remote url] is the body served at [url], [None] when
    the request fails; [zip_ok content] tells whether [zipfile] opens
    an archive with these bytes and extracts it to the end;
    [zip_members content] lists the regular files [zipfile] writes
    from such an archive, all of them when [zip_ok], those written
    before the failure otherwise, each with its name relative to the
    extraction directory and its content; [mkdir_denied path] tells
    whether making the directory [path] fails when it is not there
    yet. *)
Record outside : Type := mk_outside {
  remote : string -> option (list byte);
  zip_ok : list byte -> bool;
  zip_members : list byte -> list (string * list byte);
  mkdir_denied : string -> bool
}.

(** Whether the directory [path] is there: it was made before, or a
    regular file lies beneath it. *)
Definition dir_exists (w : world) (path : string) : bool :=
  bool_decide (path ∈ dirs w)
  || existsb (String.prefix (OsPath.join path "")) (map fst (map_to_list (files w))).

(** A command runs on a world and leaves a world, also when it raises. *)
Definition cmd (A : Type) : Type := world -> result A * world.

Definition ret {A : Type} (a : A) : cmd A := fun w => (Ok a, w).

Definition raise {A : Type} (e : exn) : cmd A := fun w => (Raise e, w).

Definition bind {A B : Type} (c : cmd A) (k : A -> cmd B) : cmd B :=
  fun w =>
    match c w with
    | (Ok a, w') => k a w'
    | (Raise e, w') => (Raise e, w')
    end.

Declare Scope cmd_scope.
Delimit Scope cmd_scope with cmd.
Notation "'let*' x ':=' c 'in' k" := (bind c (fun x => k))
  (at level 10, x name, c at level 100, k at level 200) : cmd_scope.

Definition emit (e : event) : cmd unit :=
  fun w => (Ok tt, {| files := files w; dirs := dirs w; trace := trace w ++ [e] |}).

(** [for x in xs: body(x)], stopping at the first exception. *)
Fixpoint for_each {A : Type} (xs : list A) (body : A -> cmd unit) : cmd unit :=
  match xs with
  | [] => ret tt
  | x :: xs' => (let* _ := body x in for_each xs' body)%cmd
  end.

Section Download.

Context `{Hashlib}.
Variable out : outside.

(** [os.makedirs(path)] inside the [try]: an existing directory
    raises [EEXIST], which the handler passes over; any other
    [OSError] is raised again. *)
Definition makedirs_exist_ok (path : string) : cmd unit :=
  fun w =>
    if negb (dir_exists w path) && mkdir_denied out path
    then (Raise (OSError path), w)
    else (Ok tt, {| files := files w; dirs := {[path]} ∪ dirs w; trace := trace w |}).

(** [urllib.request.urlopen(url)]: the response, whose body is read
    later by [read]. *)
Definition urlopen (url : string) : cmd (string * list byte) :=
  (let* _ := emit (Urlopen url) in
   match remote out url with
   | None => raise (URLError url)
   | Some body => ret (url, body)
   end)%cmd.

(** [data.read()] *)
Definition read (data : string * list byte) : cmd (list byte) :=
  (let* _ := emit (Read (fst data)) in ret (snd data))%cmd.

(** [self.zips_md5[filename]] *)
Definition zips_md5_getitem (filename : string) : cmd string :=
  match zips_md5 !! filename with
  | Some md5 => ret md5
  | None => raise (KeyError filename)
  end.

Definition print (msg : string) : cmd unit := emit (Print msg).

(** [with open(file_path, 'wb') as f: f.write(content)] *)
Definition write_file (file_path : string) (content : list byte) : cmd unit :=
  fun w =>
    (Ok tt, {| files := <[file_path := content]> (files w);
               dirs := dirs w;
               trace := trace w ++ [WriteFile file_path content] |}).

(** The path [zipfile] writes a member at: the name of the member,
    which [zipfile] has cleaned of its leading separators, joined to
    the extraction directory. *)
Definition member_path (target_dir name : string) : string :=
  target_dir +:+ "/" +:+ name.

(** The members written one after the other, a later one over an
    earlier one of the same path. *)
Definition write_members (target_dir : string) (members : list (string * list byte))
    (fs : file_store) : file_store :=
  fold_left (fun fs member => <[member_path target_dir (fst member) := snd member]> fs)
            members fs.

(** [with zipfile.ZipFile(file_path, 'r') as zip_ref:
     zip_ref.extractall(target_dir)]: the members are written beneath
    [target_dir]; when [zipfile] fails, those written before the
    failure stay. *)
Definition extractall (file_path target_dir : string) : cmd unit :=
  fun w =>
    match files w !! file_path with
    | Some content =>
        let written := write_members target_dir (zip_members out content) (files w) in
        if zip_ok out content
        then (Ok tt, {| files := written;
                        dirs := dirs w;
                        trace := trace w ++ [ExtractAll file_path target_dir] |})
        else (Raise (BadZipFile file_path),
              {| files := written; dirs := dirs w; trace := trace w |})
    | None => (Raise (OSError file_path), w)
    end.

(** [os.unlink(file_path)] *)
Definition unlink (file_path : string) : cmd unit :=
  fun w =>
    (Ok tt, {| files := delete file_path (files w);
               dirs := dirs w;
               trace := trace w ++ [Unlink file_path] |}).

(** The body of the loop of [download] for one [book_id]. *)
Definition download_book (root book_id : string) : cmd unit :=
  (let url := download_url book_id in
   let* data := urlopen url in
   let filename := PyStr.rpartition_sep_2 url in
   let file_path := OsPath.join3 root raw_folder filename in
   let* md5 := zips_md5_getitem filename in
   fun w =>
     if check_integrity (files w) file_path md5
     then print ("File already downloaded and verified: " +:+ filename) w
     else
       (let* _ := print ("Downloading " +:+ url) in
        let* content := read data in
        let* _ := write_file file_path content in
        let* _ := print ("Extracting data: " +:+ filename) in
        let target_dir := PyStr.replace ".zip" "" file_path in
        let* _ := extractall file_path target_dir in
        unlink file_path) w)%cmd.

(** [CharShapes.download()]; [root] is [self.root]. *)
Definition download (root : string) : cmd unit :=
  (let* _ := makedirs_exist_ok (OsPath.join root raw_folder) in
   for_each book_ids (download_book root))%cmd.

(** The part of [download] that comes before the book of position
    [k] in the catalog: the raw folder made and the loop run over the
    first [k] books.  It ends in the state in which the loop reaches
    that book. *)
Definition download_upto (root : string) (k : nat) : cmd unit :=
  (let* _ := makedirs_exist_ok (OsPath.join root raw_folder) in
   for_each (take k book_ids) (download_book root))%cmd.

End Download.

(** ** Notions the statements below are written with *)

(** No ['/'] in a name: what a file system allows as the name of an
    entry. *)
Fixpoint no_sep (s : string) : bool :=
  match s with
  | EmptyString => true
  | String c rest => negb (Ascii.eqb c PyStr.sep) && no_sep rest
  end.

(** Every name of the tree is free of ['/']. *)
Fixpoint wf_node (n : node) : bool :=
  match n with
  | File name => no_sep name
  | Dir name es => no_sep name && forallb wf_node es
  end.

Definition wf_listing (es : list node) : bool := forallb wf_node es.

(** [dir_at top es p name sub]: strictly beneath the directory [top],
    which lists [es], the directory of path [p] is named [name] and
    lists [sub]. *)
Inductive dir_at : string -> list node -> string -> string -> list node -> Prop :=
| dir_at_child top es name sub :
    Dir name sub ∈ es ->
    dir_at top es (OsPath.join top name) name sub
| dir_at_deeper top es name sub p name' sub' :
    Dir name sub ∈ es ->
    dir_at (OsPath.join top name) sub p name' sub' ->
    dir_at top es p name' sub'.

(** A label directory: a directory whose name contains ["U+"]. *)
Definition is_label (name : string) : bool := PyStr.contains "U+" name.

(** [under_label top es p name sub]: beneath [top], the directory of
    path [p], named [name] and listing [sub], is a label directory or
    lies beneath one. *)
Definition under_label (top : string) (es : list node)
    (p name : string) (sub : list node) : Prop :=
  exists lp ln les,
    dir_at top es lp ln les /\ is_label ln = true /\
    ((p, name, sub) = (lp, ln, les) \/ dir_at lp les p name sub).

(** The number of files directly inside label directories, over a
    whole tree. *)
Fixpoint label_files (n : node) : nat :=
  match n with
  | File _ => 0
  | Dir name es =>
      (if is_label name then length (filenames_of es) else 0)
      + list_sum (map label_files es)
  end.

(** The names of the label directories of a tree, one per directory. *)
Fixpoint label_dir_names (n : node) : list string :=
  match n with
  | File _ => []
  | Dir name es =>
      (if is_label name then [name] else []) ++ flat_map label_dir_names es
  end.

(** Label directories hold files only, as in the layout
    [$data_dir/*/characters/[:label]/[:image_name]]. *)
Fixpoint flat_labels (n : node) : bool :=
  match n with
  | File _ => true
  | Dir name es =>
      (if is_label name then forallb (fun c => negb (is_dir c)) es else true)
      && forallb flat_labels es
  end.

(** The same over the listing of the raw folder: [N], the files
    directly inside label directories, and the label directories, whose
    number is [K]. *)
Definition label_files_in (es : list node) : nat := list_sum (map label_files es).

Definition label_dirs_in (es : list node) : list string := flat_map label_dir_names es.

Definition flat_labels_in (es : list node) : bool := forallb flat_labels es.

(** All the files of a tree. *)
Fixpoint count_files (n : node) : nat :=
  match n with
  | File _ => 1
  | Dir _ es => list_sum (map count_files es)
  end.

(** A weight [w path entries] summed over the label directories of a
    tree, in the order of the tree. *)
Fixpoint weigh (w : string -> list node -> nat) (top : string) (n : node) : nat :=
  match n with
  | File _ => 0
  | Dir name es =>
      (if is_label name then w (OsPath.join top name) es else 0)
      + list_sum (map (weigh w (OsPath.join top name)) es)
  end.

(** The label directories among the sub-directories that [os.walk]
    yields for [dirname]: what the inner loop of [get_characters_dir]
    appends. *)
Definition label_children (dirname : string) (dirnames : list node) : list char_dir :=
  flat_map
    (fun sub =>
       if PyStr.contains "U+" (node_name sub)
       then [(OsPath.join dirname (node_name sub), dir_entries sub)]
       else [])
    dirnames.

(** Everything the walks of [load_img_list] yield, in order. *)
Definition walked (chars_dirs : list char_dir) : list walk_item :=
  flat_map (fun cd : char_dir => os_walk (fst cd) (snd cd)) chars_dirs.

(** The records and the label one yielded directory gives. *)
Definition item_label (item : walk_item) : string :=
  OsPath.basename (fst (fst item)).

Definition item_images (item : walk_item) : list img_info :=
  map (fun filename =>
         {| image_path := OsPath.join (fst (fst item)) filename;
            code_point := item_label item |})
      (snd item).

(** The records a tree gives when [k] label directories enclose it:
    a file is recorded once for each label directory above it. *)
Fixpoint records_for (k : nat) (n : node) : nat :=
  match n with
  | File _ => k
  | Dir name es =>
      list_sum (map (records_for (if is_label name then S k else k)) es)
  end.

(** The archive of a book: [filename] and [file_path] in [download]. *)
Definition archive_name (book_id : string) : string := book_id +:+ ".zip".

Definition archive_path (root book_id : string) : string :=
  OsPath.join3 root raw_folder (archive_name book_id).

Definition is_urlopen (e : event) : bool :=
  match e with Urlopen _ => true | _ => false end.

Definition is_read (e : event) : bool :=
  match e with Read _ => true | _ => false end.


(** The events of a book whose archive verifies. *)
Definition skipped_events (book_id : string) : list event :=
  [ Urlopen (download_url book_id);
    Print ("File already downloaded and verified: " +:+ archive_name book_id) ].

(** The events of a book whose archive is fetched, extracted and
    removed. *)
Definition fetched_events (root book_id : string) (body : list byte) : list event :=
  [ Urlopen (download_url book_id);
    Print ("Downloading " +:+ download_url book_id);
    Read (download_url book_id);
    WriteFile (archive_path root book_id) body;
    Print ("Extracting data: " +:+ archive_name book_id);
    ExtractAll (archive_path root book_id)
      (PyStr.replace ".zip" "" (archive_path root book_id));
    Unlink (archive_path root book_id) ].

(** The archive of a book is on disk and passes [_check_integrity]
    against its entry of [zips_md5]. *)
Definition archive_verified `{Hashlib} (files : file_store) (root book_id : string) : Prop :=
  exists md5,
    zips_md5 !! archive_name book_id = Some md5 /\
    check_integrity files (archive_path root book_id) md5 = true.

(** [old] occurs in [a +:+ old] before the final copy. *)
Fixpoint occurs_early (old a : string) : bool :=
  match a with
  | EmptyString => false
  | String _ a' => String.prefix old (a +:+ old) || occurs_early old a'
  end.

(** The number of ['/'] in a path. *)
Fixpoint count_sep (s : string) : nat :=
  match s with
  | EmptyString => 0
  | String c rest => (if Ascii.eqb c PyStr.sep then 1 else 0) + count_sep rest
  end.

(** The directory the archive of a book is extracted into:
    [target_dir] in [download]. *)
Definition extraction_dir (root book_id : string) : string :=
  PyStr.replace ".zip" "" (archive_path root book_id).

(** [beneath dir p]: the path [p] lies beneath the directory [dir]. *)
Definition beneath (dir p : string) : bool := String.prefix (dir +:+ "/") p.

(** The exceptions [KeyError] among those of the module. *)
Definition is_key_error (e : exn) : bool :=
  match e with KeyError _ => true | _ => false end.

(** ** Scenarios *)

Module Scenario.

(** A digest for scenarios: the hex digest of a content is the
    content itself, read as text. *)
#[local] Instance plain_digest : Hashlib := {|
  md5_state := list byte;
  md5_new := [];
  md5_update := fun s chunk => s ++ chunk;
  md5_hexdigest := string_of_list_byte;
  md5_update_nil := fun s => List.app_nil_r s;
  md5_update_app := fun s a b => eq_sym (List.app_assoc s a b)
|}.

(** The raw folder of the end-to-end scenario of the dataset
    layout. *)
Definition two_labels : list node :=
  [Dir "200003076" [Dir "characters"
     [Dir "U+4E00" [File "a.jpg"]; Dir "U+4E01" [File "b.jpg"]]]].

(** A label directory without files. *)
Definition empty_label : list node := [Dir "U+4E00" []].

(** A label directory inside a label directory. *)
Definition nested_labels : list node :=
  [Dir "U+4E00" [File "a.jpg"; Dir "U+4E01" [File "b.jpg"]]].

(** A directory of another name inside a label directory. *)
Definition nested_plain : list node :=
  [Dir "U+4E00" [Dir "sub" [File "c.jpg"]]].

(** Files, and no label directory anywhere. *)
Definition unlabelled : list node :=
  [File "README.txt"; Dir "200003076" [Dir "characters" [File "a.jpg"]]].

(** An accessor over one record, every image decoding. *)
Definition one_record : CharShapes unit :=
  init "" None None [Dir "U+4E00" [File "a.jpg"]].

Definition decode_all (path : string) : option unit := Some tt.

(** Two accessors over the same raw folder that differ in
    [target_transform] only. *)
Definition plain_target : CharShapes unit :=
  init "/data" None None two_labels.

Definition marked_target : CharShapes unit :=
  init "/data" None (Some (fun label => label +:+ "!")) two_labels.

(** Every archive of the catalog present under [data/raw] with the
    content its checksum stands for, and a remote host that serves
    an empty body at every address. *)
Definition verified_files : file_store :=
  list_to_map
    (map (fun id =>
            let filename := id +:+ ".zip" in
            (OsPath.join3 "data" raw_folder filename,
             list_byte_of_string (default "" (zips_md5 !! filename))))
         book_ids).

Definition all_verified : world :=
  {| files := verified_files; dirs := {["data/raw"]}; trace := [] |}.

Definition serve_empty : outside :=
  {| remote := fun _ => Some []; zip_ok := fun _ => true;
     zip_members := fun _ => [];
     mkdir_denied := fun _ => false |}.

(** The host unreachable. *)
Definition unreachable : outside :=
  {| remote := fun _ => None; zip_ok := fun _ => true;
     zip_members := fun _ => [];
     mkdir_denied := fun _ => false |}.


(** The one image every archive of the scenarios holds. *)
Definition one_image : list (string * list byte) :=
  [("characters/U+3042/a.jpg", list_byte_of_string "image")].

(** A host that serves an archive whose extraction fails after the
    first member is written. *)
Definition serve_truncated : outside :=
  {| remote := fun _ => Some (list_byte_of_string "cut short");
     zip_ok := fun _ => false;
     zip_members := fun _ => one_image;
     mkdir_denied := fun _ => false |}.

(** The first archive of the catalog present with a content that
    does not verify, and a host that serves a fresh body. *)
Definition stale_archive : world :=
  {| files := {[ "data/raw/200003076.zip" := list_byte_of_string "stale" ]};
     dirs := {["data/raw"]};
     trace := [] |}.

Definition serve_fresh : outside :=
  {| remote := fun _ => Some (list_byte_of_string "fresh");
     zip_ok := fun _ => true;
     zip_members := fun _ => one_image;
     mkdir_denied := fun _ => false |}.

Definition nothing_yet : world := {| files := ∅; dirs := ∅; trace := [] |}.

(** The second archive of the catalog present with a content that
    does not verify, and a host on which only the address of the first
    book fails. *)
Definition stale_second : world :=
  {| files := {[ "data/raw/200003967.zip" := list_byte_of_string "stale" ]};
     dirs := {["data/raw"]};
     trace := [] |}.

Definition first_down : outside :=
  {| remote := fun url =>
       if String.eqb url (download_url "200003076") then None
       else Some (list_byte_of_string "fresh");
     zip_ok := fun _ => true;
     zip_members := fun _ => one_image;
     mkdir_denied := fun _ => false |}.

(** A raw folder that holds a file of the user's own. *)
Definition with_notes : world :=
  {| files := {[ "data/raw/notes.txt" := list_byte_of_string "notes" ]};
     dirs := {["data/raw"]};
     trace := [] |}.

(** A file system on which no directory can be made. *)
Definition read_only : outside :=
  {| remote := fun _ => Some (list_byte_of_string "fresh");
     zip_ok := fun _ => true;
     zip_members := fun _ => one_image;
     mkdir_denied := fun _ => true |}.

End Scenario.

(** * Properties *)

(** ** Paths *)

Lemma append_cons (c : ascii) (s t : string) :
  String c s +:+ t = String c (s +:+ t).
Proof. reflexivity. Qed.

Lemma append_assoc (s t u : string) : (s +:+ t) +:+ u = s +:+ (t +:+ u).
Proof. induction s as [|c s IH]; [reflexivity|]. rewrite !append_cons. by rewrite IH. Qed.

Lemma no_sep_cons (c : ascii) (s : string) :
  no_sep (String c s) = true -> Ascii.eqb c PyStr.sep = false /\ no_sep s = true.
Proof.
  cbn [no_sep]. intros Hs. apply andb_prop in Hs as [Hc Hs].
  split; [by apply negb_true_iff|done].
Qed.

Lemma no_sep_append (s t : string) :
  no_sep s = true -> no_sep t = true -> no_sep (s +:+ t) = true.
Proof.
  induction s as [|c s IH]; [done|].
  intros [Hc Hs]%no_sep_cons Ht. rewrite append_cons. cbn [no_sep].
  rewrite Hc. cbn. by apply IH.
Qed.

Lemma after_last_sep_no_sep (acc s : string) :
  no_sep s = true -> PyStr.after_last_sep acc s = acc.
Proof.
  induction s as [|c s IH]; [done|].
  intros [Hc Hs]%no_sep_cons. cbn [PyStr.after_last_sep]. rewrite Hc. by apply IH.
Qed.

Lemma after_last_sep_append (acc p n : string) :
  no_sep n = true ->
  PyStr.after_last_sep acc (p +:+ String PyStr.sep n) = n.
Proof.
  intros Hn. revert acc. induction p as [|c p IH]; intros acc.
  - change ("" +:+ String PyStr.sep n) with (String PyStr.sep n).
    cbn [PyStr.after_last_sep]. rewrite Ascii.eqb_refl.
    by apply after_last_sep_no_sep.
  - rewrite append_cons. cbn [PyStr.after_last_sep].
    destruct (Ascii.eqb c PyStr.sep); apply IH.
Qed.

Lemma endswith_sep_inv (p : string) :
  PyStr.endswith_sep p = true -> exists q, p = q +:+ String PyStr.sep "".
Proof.
  induction p as [|c p IH]; [done|].
  cbn [PyStr.endswith_sep]. destruct p as [|c' p'].
  - intros ->%Ascii.eqb_eq. by exists "".
  - intros [q Hq]%IH. exists (String c q). rewrite append_cons. by rewrite Hq.
Qed.

Lemma startswith_sep_no_sep (n : string) :
  no_sep n = true -> PyStr.startswith_sep n = false.
Proof. destruct n as [|c n]; [done|]. by intros [Hc _]%no_sep_cons. Qed.

(** [join] puts the joined name after a ['/'], or returns it alone. *)
Lemma join_no_sep (d n : string) :
  no_sep n = true ->
  OsPath.join d n = n \/ exists q, OsPath.join d n = q +:+ String PyStr.sep n.
Proof.
  intros Hn. unfold OsPath.join. rewrite (startswith_sep_no_sep _ Hn).
  destruct (String.eqb d "") eqn:Hd; cbn [orb].
  - apply String.eqb_eq in Hd as ->. by left.
  - destruct (PyStr.endswith_sep d) eqn:He.
    + apply endswith_sep_inv in He as [q ->]. right. exists q.
      by rewrite append_assoc.
    + right. by exists d.
Qed.

(** [os.path.basename(os.path.join(d, n))] is [n] for a name [n]. *)
Lemma basename_join (d n : string) :
  no_sep n = true -> OsPath.basename (OsPath.join d n) = n.
Proof.
  intros Hn. unfold OsPath.basename.
  destruct (join_no_sep d n Hn) as [-> | [q ->]].
  - by apply after_last_sep_no_sep.
  - by apply after_last_sep_append.
Qed.

(** ** Directory trees *)

Lemma node_nested_ind (P : node -> Prop) :
  (forall name, P (File name)) ->
  (forall name es, Forall P es -> P (Dir name es)) ->
  forall n, P n.
Proof.
  intros HFile HDir. fix IH 1. intros [name|name es]; [apply HFile|].
  apply HDir. induction es as [|c es IHes]; constructor; [apply IH|exact IHes].
Qed.

Lemma elem_of_flat_map {A B : Type} (f : A -> list B) (l : list A) (y : B) :
  y ∈ flat_map f l <-> exists x, x ∈ l /\ y ∈ f x.
Proof.
  rewrite list_elem_of_In, in_flat_map. split.
  - intros (x & Hx & Hy). exists x. by rewrite !list_elem_of_In.
  - intros (x & Hx & Hy). exists x. by rewrite <- !list_elem_of_In.
Qed.

Lemma walk_sub_dir (top name : string) (es : list node) :
  walk_sub top (Dir name es) = os_walk (OsPath.join top name) es.
Proof. reflexivity. Qed.

Lemma dir_at_entry (top : string) (es : list node) (p name : string) (sub : list node) :
  dir_at top es p name sub <-> exists n, n ∈ es /\ dir_at top [n] p name sub.
Proof.
  split.
  - intros Hd. destruct Hd as [top es name sub Hin | top es name sub p name' sub' Hin Hd].
    + exists (Dir name sub). split; [done|]. apply dir_at_child. set_solver.
    + exists (Dir name sub). split; [done|].
      eapply dir_at_deeper; [|exact Hd]. set_solver.
  - intros (n & Hn & Hd). inversion Hd as [? ? ? ? Hin | ? ? ? ? ? ? ? Hin Hd']; subst.
    + apply list_elem_of_singleton in Hin. subst n. by apply dir_at_child.
    + apply list_elem_of_singleton in Hin. subst n. by eapply dir_at_deeper.
Qed.

(** The directories beneath one entry: the entry itself when it is a
    directory, and the directories beneath it. *)
Lemma dir_at_single (top : string) (n : node) (p name : string) (sub : list node) :
  dir_at top [n] p name sub <->
  exists nm es, n = Dir nm es /\
    ((p = OsPath.join top nm /\ name = nm /\ sub = es) \/
     dir_at (OsPath.join top nm) es p name sub).
Proof.
  split.
  - intros Hd. inversion Hd as [? ? ? ? Hin | ? ? nm es ? ? ? Hin Hd']; subst.
    + apply list_elem_of_singleton in Hin. subst n. exists name, sub. auto.
    + apply list_elem_of_singleton in Hin. subst n. exists nm, es. auto.
  - intros (nm & es & -> & [(-> & -> & ->) | Hd]).
    + apply dir_at_child. set_solver.
    + eapply dir_at_deeper; [|exact Hd]. set_solver.
Qed.

(** [os.walk] yields the top directory and every directory beneath
    it, and nothing else. *)
Lemma elem_of_walk_sub (n : node) :
  forall (top : string) (item : walk_item),
    item ∈ walk_sub top n <->
    exists p name sub, dir_at top [n] p name sub /\
                       item = (p, subdirs sub, filenames_of sub).
Proof.
  induction n as [name | name es IH] using node_nested_ind; intros top item.
  - split; [by intros ?%elem_of_nil|].
    intros (p & nm & sub & Hd & _). apply dir_at_single in Hd as (? & ? & ? & _). done.
  - cbn [walk_sub]. rewrite elem_of_cons, elem_of_flat_map. split.
    + intros [-> | (c & Hc & Hitem)].
      * exists (OsPath.join top name), name, es. split; [|done].
        apply dir_at_child. set_solver.
      * rewrite Forall_forall in IH. apply (IH c Hc) in Hitem as (p & nm & sub & Hd & ->).
        exists p, nm, sub. split; [|done].
        apply dir_at_single. exists name, es. split; [done|]. right.
        apply dir_at_entry. eauto.
    + intros (p & nm & sub & Hd & ->).
      apply dir_at_single in Hd as (nm' & es' & Heq & Hd). injection Heq as <- <-.
      destruct Hd as [(-> & -> & ->) | Hd]; [by left|]. right.
      apply dir_at_entry in Hd as (c & Hc & Hd). exists c. split; [done|].
      rewrite Forall_forall in IH. apply (IH c Hc). eauto.
Qed.

Lemma elem_of_os_walk (top : string) (es : list node) (item : walk_item) :
  item ∈ os_walk top es <->
  item = (top, subdirs es, filenames_of es) \/
  exists p name sub, dir_at top es p name sub /\
                     item = (p, subdirs sub, filenames_of sub).
Proof.
  unfold os_walk. rewrite elem_of_cons, elem_of_flat_map. split.
  - intros [-> | (c & Hc & Hitem)]; [by left|]. right.
    apply elem_of_walk_sub in Hitem as (p & nm & sub & Hd & ->).
    exists p, nm, sub. split; [|done]. apply dir_at_entry. eauto.
  - intros [-> | (p & nm & sub & Hd & ->)]; [by left|]. right.
    apply dir_at_entry in Hd as (c & Hc & Hd). exists c. split; [done|].
    apply elem_of_walk_sub. eauto.
Qed.

Lemma dir_at_trans (top : string) (es : list node) (p name : string) (sub : list node)
    (q name' : string) (sub' : list node) :
  dir_at top es p name sub -> dir_at p sub q name' sub' -> dir_at top es q name' sub'.
Proof.
  intros Hd. revert q name' sub'.
  induction Hd as [top es name sub Hin | top es name sub p name0 sub0 Hin Hd IH];
    intros q name' sub' Hq.
  - by eapply dir_at_deeper.
  - eapply dir_at_deeper; [exact Hin|]. by apply IH.
Qed.

(** The last step of a descent: a directory beneath [top] is a child
    of [top] or a child of a directory beneath [top]. *)
Lemma dir_at_last (top : string) (es : list node) (q name : string) (sub : list node) :
  dir_at top es q name sub ->
  (Dir name sub ∈ es /\ q = OsPath.join top name) \/
  exists p name' sub', dir_at top es p name' sub' /\
                       Dir name sub ∈ sub' /\ q = OsPath.join p name.
Proof.
  induction 1 as [top es name sub Hin | top es name sub p name0 sub0 Hin Hd IH].
  - by left.
  - right. destruct IH as [[Hc ->] | (p' & n' & s' & Hd' & Hc & ->)].
    + exists (OsPath.join top name), name, sub. split; [by apply dir_at_child|done].
    + exists p', n', s'. split; [by eapply dir_at_deeper|done].
Qed.

Lemma dir_at_path (top : string) (es : list node) (p name : string) (sub : list node) :
  dir_at top es p name sub -> exists parent, p = OsPath.join parent name.
Proof.
  intros [[_ ->] | (p' & _ & _ & _ & _ & ->)]%dir_at_last; eauto.
Qed.

Lemma wf_listing_elem (es : list node) (n : node) :
  wf_listing es = true -> n ∈ es -> wf_node n = true.
Proof.
  unfold wf_listing. rewrite forallb_forall. intros Hes Hn.
  apply Hes. by apply list_elem_of_In.
Qed.

Lemma wf_node_dir (name : string) (es : list node) :
  wf_node (Dir name es) = true -> no_sep name = true /\ wf_listing es = true.
Proof. cbn [wf_node]. by intros ?%andb_prop. Qed.

Lemma dir_at_wf (top : string) (es : list node) (p name : string) (sub : list node) :
  wf_listing es = true -> dir_at top es p name sub ->
  no_sep name = true /\ wf_listing sub = true.
Proof.
  intros Hwf Hd.
  induction Hd as [top es name sub Hin | top es name sub p name0 sub0 Hin Hd IH].
  - apply wf_node_dir. by eapply wf_listing_elem.
  - apply IH. eapply wf_node_dir, wf_listing_elem; eauto.
Qed.

(** With names free of ['/'], the basename of a directory's path is
    the directory's name. *)
Lemma dir_at_basename (top : string) (es : list node) (p name : string) (sub : list node) :
  wf_listing es = true -> dir_at top es p name sub -> OsPath.basename p = name.
Proof.
  intros Hwf Hd. destruct (dir_at_wf _ _ _ _ _ Hwf Hd) as [Hname _].
  destruct (dir_at_path _ _ _ _ _ Hd) as [parent ->]. by apply basename_join.
Qed.

Lemma elem_of_filenames_of (es : list node) (f : string) :
  f ∈ filenames_of es <-> File f ∈ es.
Proof.
  unfold filenames_of. rewrite list_elem_of_In, in_map_iff. split.
  - intros (n & <- & Hn). apply filter_In in Hn as [Hn Hf].
    destruct n as [nm | nm sub]; [|done]. by apply list_elem_of_In.
  - intros Hf. exists (File f). split; [done|]. apply filter_In.
    split; [by apply list_elem_of_In|done].
Qed.

Lemma elem_of_subdirs (es : list node) (n : node) :
  n ∈ subdirs es <-> exists name sub, n = Dir name sub /\ Dir name sub ∈ es.
Proof.
  unfold subdirs. rewrite list_elem_of_In, filter_In, <- list_elem_of_In. split.
  - intros [Hn Hd]. destruct n as [nm | nm sub]; [done|]. eauto.
  - intros (nm & sub & -> & Hn). done.
Qed.

(** ** The loops as comprehensions *)

Lemma fold_left_appending {A B : Type} (g : list B -> A -> list B) (f : A -> list B) :
  (forall acc x, g acc x = acc ++ f x) ->
  forall l acc, fold_left g l acc = acc ++ flat_map f l.
Proof.
  intros Hg l. induction l as [|x l IH]; intros acc; cbn.
  - by rewrite app_nil_r.
  - by rewrite IH, Hg, app_assoc.
Qed.

Lemma fold_left_appending2 {A B C : Type} (g : list B * list C -> A -> list B * list C)
    (f1 : A -> list B) (f2 : A -> list C) :
  (forall a b x, g (a, b) x = (a ++ f1 x, b ++ f2 x)) ->
  forall l a b, fold_left g l (a, b) = (a ++ flat_map f1 l, b ++ flat_map f2 l).
Proof.
  intros Hg l. induction l as [|x l IH]; intros a b; cbn.
  - by rewrite !app_nil_r.
  - by rewrite Hg, IH, !app_assoc.
Qed.

Lemma flat_map_flat_map {A B C : Type} (f : B -> list C) (g : A -> list B) (l : list A) :
  flat_map f (flat_map g l) = flat_map (fun x => flat_map f (g x)) l.
Proof.
  induction l as [|x l IH]; [done|]. cbn. by rewrite flat_map_app, IH.
Qed.

Lemma flat_map_single {A B : Type} (f : A -> B) (l : list A) :
  flat_map (fun x => [f x]) l = map f l.
Proof. induction l as [|x l IH]; [done|]. cbn. by rewrite IH. Qed.

Lemma get_characters_dir_flat (data_dir : string) (es : list node) :
  get_characters_dir data_dir es =
  flat_map (fun item : walk_item => label_children (fst (fst item)) (snd (fst item)))
           (os_walk data_dir es).
Proof.
  unfold get_characters_dir.
  rewrite (fold_left_appending _
    (fun item : walk_item => label_children (fst (fst item)) (snd (fst item)))); [done|].
  intros acc [[dirname dirnames] filenames]. cbn [fst snd]. unfold label_children.
  apply fold_left_appending. intros acc' sub.
  destruct (PyStr.contains "U+" (node_name sub)); [done|by rewrite app_nil_r].
Qed.

Lemma load_loops_flat (chars_dirs : list char_dir) :
  load_loops chars_dirs =
  (flat_map item_images (walked chars_dirs), map item_label (walked chars_dirs)).
Proof.
  unfold load_loops, walked.
  rewrite (fold_left_appending2 _
    (fun cd : char_dir => flat_map item_images (os_walk (fst cd) (snd cd)))
    (fun cd : char_dir => map item_label (os_walk (fst cd) (snd cd)))).
  - cbn [app]. f_equal.
    + by rewrite flat_map_flat_map.
    + rewrite <- flat_map_single, flat_map_flat_map.
      apply flat_map_ext. intros cd. by rewrite flat_map_single.
  - intros a b [char_dir es]. cbn [fst snd].
    rewrite <- (flat_map_single item_label).
    apply fold_left_appending2. intros a' b' [[dirname dirnames] filenames].
    f_equal. unfold item_images, item_label. cbn [fst snd].
    rewrite (fold_left_appending _
      (fun filename => [{| image_path := OsPath.join dirname filename;
                           code_point := OsPath.basename dirname |}])); [|done].
    by rewrite flat_map_single.
Qed.

Lemma load_img_list_records (root : string) (es : list node) :
  fst (load_img_list root es) =
  flat_map item_images (walked (get_characters_dir (OsPath.join root raw_folder) es)).
Proof. unfold load_img_list. by rewrite load_loops_flat. Qed.

Lemma load_img_list_labels (root : string) (es : list node) :
  snd (load_img_list root es) =
  elements (list_to_set (map item_label
     (walked (get_characters_dir (OsPath.join root raw_folder) es))) : gset string).
Proof. unfold load_img_list. by rewrite load_loops_flat. Qed.

(** ** What the two walks reach *)

Lemma elem_of_label_children (p : string) (dirnames : list node) (cd : char_dir) :
  cd ∈ label_children p dirnames <->
  exists c, c ∈ dirnames /\ is_label (node_name c) = true /\
            cd = (OsPath.join p (node_name c), dir_entries c).
Proof.
  unfold label_children, is_label. rewrite elem_of_flat_map. split.
  - intros (c & Hc & Hcd). exists c. split; [done|].
    destruct (PyStr.contains "U+" (node_name c)); [|by apply elem_of_nil in Hcd].
    by apply list_elem_of_singleton in Hcd.
  - intros (c & Hc & Hl & ->). exists c. split; [done|]. rewrite Hl. set_solver.
Qed.

(** [get_characters_dir] returns the label directories beneath
    [data_dir], each with its path. *)
Lemma elem_of_get_characters_dir (data_dir : string) (es : list node) (cd : char_dir) :
  cd ∈ get_characters_dir data_dir es <->
  exists name, dir_at data_dir es (fst cd) name (snd cd) /\ is_label name = true.
Proof.
  rewrite get_characters_dir_flat, elem_of_flat_map. split.
  - intros (item & Hitem & Hcd).
    apply elem_of_label_children in Hcd as (c & Hc & Hl & ->).
    apply elem_of_os_walk in Hitem as [-> | (p & nm & sub & Hd & ->)];
      cbn [fst snd] in *; apply elem_of_subdirs in Hc as (cn & cs & -> & Hc);
      cbn [node_name dir_entries] in *; exists cn; (split; [|done]).
    + by apply dir_at_child.
    + eapply dir_at_trans; [exact Hd|]. by apply dir_at_child.
  - destruct cd as [q s]. cbn [fst snd]. intros (name & Hd & Hl).
    apply dir_at_last in Hd as [[Hc ->] | (p & nm & sub & Hd & Hc & ->)].
    + exists (data_dir, subdirs es, filenames_of es). split.
      * apply elem_of_os_walk. by left.
      * apply elem_of_label_children. exists (Dir name s).
        split; [apply elem_of_subdirs; eauto|done].
    + exists (p, subdirs sub, filenames_of sub). split.
      * apply elem_of_os_walk. right. eauto.
      * apply elem_of_label_children. exists (Dir name s).
        split; [apply elem_of_subdirs; eauto|done].
Qed.

(** The walks of [load_img_list] yield the label directories and the
    directories beneath them. *)
Lemma elem_of_walked (data_dir : string) (es : list node) (item : walk_item) :
  item ∈ walked (get_characters_dir data_dir es) <->
  exists p name sub, under_label data_dir es p name sub /\
                     item = (p, subdirs sub, filenames_of sub).
Proof.
  unfold walked. rewrite elem_of_flat_map. split.
  - intros ([lp les] & Hcd & Hitem). cbn [fst snd] in Hitem.
    apply elem_of_get_characters_dir in Hcd as (ln & Hd & Hl). cbn [fst snd] in Hd.
    apply elem_of_os_walk in Hitem as [-> | (p & nm & sub & Hd' & ->)].
    + exists lp, ln, les. split; [|done]. exists lp, ln, les. auto.
    + exists p, nm, sub. split; [|done]. exists lp, ln, les. auto.
  - intros (p & nm & sub & (lp & ln & les & Hd & Hl & Hin) & ->).
    exists (lp, les). split.
    + apply elem_of_get_characters_dir. exists ln. done.
    + cbn [fst snd]. apply elem_of_os_walk.
      destruct Hin as [Heq | Hd']; [injection Heq as -> -> ->; by left|].
      right. eauto.
Qed.

Lemma under_label_dir_at (top : string) (es : list node) (p name : string) (sub : list node) :
  under_label top es p name sub -> dir_at top es p name sub.
Proof.
  intros (lp & ln & les & Hd & _ & [Heq | Hd']).
  - by injection Heq as -> -> ->.
  - by eapply dir_at_trans.
Qed.

Lemma elem_of_item_images (item : walk_item) (r : img_info) :
  r ∈ item_images item <->
  exists f, f ∈ snd item /\
            r = {| image_path := OsPath.join (fst (fst item)) f;
                   code_point := item_label item |}.
Proof.
  unfold item_images. rewrite list_elem_of_In, in_map_iff. split.
  - intros (f & <- & Hf). exists f. by rewrite list_elem_of_In.
  - intros (f & Hf & ->). exists f. by rewrite <- list_elem_of_In.
Qed.

(** The records: one for each file directly inside a label directory
    or a directory beneath one, labelled with the basename of that
    directory's path. *)
Lemma elem_of_records (root : string) (es : list node) (r : img_info) :
  r ∈ fst (load_img_list root es) <->
  exists p name sub f,
    under_label (OsPath.join root raw_folder) es p name sub /\
    File f ∈ sub /\
    r = {| image_path := OsPath.join p f; code_point := OsPath.basename p |}.
Proof.
  rewrite load_img_list_records, elem_of_flat_map. split.
  - intros (item & Hitem & Hr).
    apply elem_of_walked in Hitem as (p & nm & sub & Hu & ->).
    apply elem_of_item_images in Hr as (f & Hf & ->). cbn [fst snd] in *.
    exists p, nm, sub, f. split; [done|]. split; [by apply elem_of_filenames_of|done].
  - intros (p & nm & sub & f & Hu & Hf & ->).
    exists (p, subdirs sub, filenames_of sub). split.
    + apply elem_of_walked. eauto.
    + apply elem_of_item_images. exists f. split; [|done].
      by apply elem_of_filenames_of.
Qed.

Lemma elem_of_labels (root : string) (es : list node) (l : string) :
  l ∈ snd (load_img_list root es) <->
  exists p name sub,
    under_label (OsPath.join root raw_folder) es p name sub /\ l = OsPath.basename p.
Proof.
  rewrite load_img_list_labels, elem_of_elements, elem_of_list_to_set.
  rewrite list_elem_of_In, in_map_iff. split.
  - intros (item & <- & Hitem). apply list_elem_of_In in Hitem.
    apply elem_of_walked in Hitem as (p & nm & sub & Hu & ->). eauto.
  - intros (p & nm & sub & Hu & ->).
    exists (p, subdirs sub, filenames_of sub). split; [done|].
    apply list_elem_of_In, elem_of_walked. eauto.
Qed.

(** ** The index built by [load_img_list] *)

(** C6, as stated, fails: in the raw folder [U+4E00/sub/c.jpg] the
    record of [c.jpg] carries the label ["sub"], the name of the
    directory that directly contains the file, and that name does not
    contain ["U+"]. *)
Lemma record_parent_without_label :
  {| image_path := "raw/U+4E00/sub/c.jpg"; code_point := "sub" |}
    ∈ fst (load_img_list "" Scenario.nested_plain) /\
  dir_at "raw" Scenario.nested_plain "raw/U+4E00/sub" "sub" [File "c.jpg"] /\
  is_label "sub" = false.
Proof.
  split; [|split].
  - apply list_elem_of_In. vm_compute. by left.
  - eapply (dir_at_deeper "raw" _ "U+4E00"); [apply list_elem_of_here|].
    apply (dir_at_child "raw/U+4E00" _ "sub"). apply list_elem_of_here.
  - reflexivity.
Qed.

(** C6, amended: with entry names free of ['/'], every record's
    [code_point] is the name of the directory that directly contains
    its image file, and that directory is a label directory (its name
    contains ["U+"]) or lies beneath one. *)
Theorem record_code_point_is_parent_name (root : string) (es : list node) (r : img_info) :
  wf_listing es = true ->
  r ∈ fst (load_img_list root es) ->
  exists p name sub f,
    under_label (OsPath.join root raw_folder) es p name sub /\
    File f ∈ sub /\
    image_path r = OsPath.join p f /\
    code_point r = name.
Proof.
  intros Hwf (p & name & sub & f & Hu & Hf & ->)%elem_of_records.
  exists p, name, sub, f. repeat split; [done..|]. cbn [code_point].
  eapply dir_at_basename; [exact Hwf|]. by eapply under_label_dir_at.
Qed.

Lemma record_code_point_is_parent_name_witness :
  wf_listing Scenario.two_labels = true /\
  {| image_path := "/data/raw/200003076/characters/U+4E00/a.jpg";
     code_point := "U+4E00" |} ∈ fst (load_img_list "/data" Scenario.two_labels) /\
  exists p name sub f,
    under_label (OsPath.join "/data" raw_folder) Scenario.two_labels p name sub /\
    File f ∈ sub /\
    "/data/raw/200003076/characters/U+4E00/a.jpg" = OsPath.join p f /\
    "U+4E00" = name.
Proof.
  assert (Hin : {| image_path := "/data/raw/200003076/characters/U+4E00/a.jpg";
                   code_point := "U+4E00" |}
                ∈ fst (load_img_list "/data" Scenario.two_labels)).
  { apply list_elem_of_In. vm_compute. by left. }
  split; [reflexivity|]. split; [exact Hin|].
  exact (record_code_point_is_parent_name "/data" Scenario.two_labels _ eq_refl Hin).
Defined.

(** C3, as stated, fails: a label directory without files puts its
    name in the label set although no record carries it. *)
Lemma label_without_record :
  "U+4E00" ∈ snd (load_img_list "" Scenario.empty_label) /\
  fst (load_img_list "" Scenario.empty_label) = [].
Proof.
  split; [|reflexivity].
  apply list_elem_of_In. vm_compute. by left.
Qed.

(** C3, amended: the label list has no duplicates and holds every
    record's [code_point]; with entry names free of ['/'], a label is
    in it exactly when it is the name of a label directory or of a
    directory beneath one, whether or not that directory holds files;
    so every label is carried by a record when each such directory
    directly holds a file. *)
Theorem labels_are_walked_directory_names (root : string) (es : list node) :
  wf_listing es = true ->
  NoDup (snd (load_img_list root es)) /\
  (forall r, r ∈ fst (load_img_list root es) ->
             code_point r ∈ snd (load_img_list root es)) /\
  (forall l, l ∈ snd (load_img_list root es) <->
             exists p sub, under_label (OsPath.join root raw_folder) es p l sub) /\
  ((forall p name sub, under_label (OsPath.join root raw_folder) es p name sub ->
                       exists f, File f ∈ sub) ->
   forall l, l ∈ snd (load_img_list root es) ->
             exists r, r ∈ fst (load_img_list root es) /\ code_point r = l).
Proof.
  intros Hwf.
  assert (Hname : forall p name sub,
            under_label (OsPath.join root raw_folder) es p name sub ->
            OsPath.basename p = name).
  { intros p name sub Hu. eapply dir_at_basename; [exact Hwf|].
    by eapply under_label_dir_at. }
  split; [|split; [|split]].
  - rewrite load_img_list_labels. apply NoDup_elements.
  - intros r (p & name & sub & f & Hu & Hf & ->)%elem_of_records.
    apply elem_of_labels. exists p, name, sub. done.
  - intros l. rewrite elem_of_labels. split.
    + intros (p & name & sub & Hu & ->). exists p, sub.
      by rewrite (Hname _ _ _ Hu).
    + intros (p & sub & Hu). exists p, l, sub. by rewrite (Hname _ _ _ Hu).
  - intros Hfiles l (p & name & sub & Hu & ->)%elem_of_labels.
    destruct (Hfiles _ _ _ Hu) as [f Hf].
    exists {| image_path := OsPath.join p f; code_point := OsPath.basename p |}.
    split; [|done]. apply elem_of_records. exists p, name, sub, f. done.
Qed.

Lemma labels_are_walked_directory_names_witness :
  wf_listing Scenario.two_labels = true /\
  NoDup (snd (load_img_list "/data" Scenario.two_labels)) /\
  (forall r, r ∈ fst (load_img_list "/data" Scenario.two_labels) ->
             code_point r ∈ snd (load_img_list "/data" Scenario.two_labels)).
Proof.
  split; [reflexivity|].
  destruct (labels_are_walked_directory_names "/data" Scenario.two_labels eq_refl)
    as (Hnodup & Hrecords & _).
  exact (conj Hnodup Hrecords).
Defined.

(** ** Counting label directories and their files *)

Lemma list_sum_cons (a : nat) (l : list nat) : list_sum (a :: l) = a + list_sum l.
Proof. reflexivity. Qed.

Lemma list_sum_map_add {A : Type} (f g : A -> nat) (l : list A) :
  list_sum (map (fun x => f x + g x) l) = list_sum (map f l) + list_sum (map g l).
Proof.
  induction l as [|x l IH]; [done|]. cbn [map]. rewrite !list_sum_cons, IH. lia.
Qed.

Lemma list_sum_map_ext {A : Type} (f g : A -> nat) (l : list A) :
  Forall (fun x => f x = g x) l -> list_sum (map f l) = list_sum (map g l).
Proof.
  induction 1 as [|x l Hx _ IH]; [done|]. cbn [map]. by rewrite !list_sum_cons, IH, Hx.
Qed.

Lemma list_sum_flat_map {A B : Type} (w : B -> nat) (f : A -> list B) (l : list A) :
  list_sum (map w (flat_map f l)) = list_sum (map (fun x => list_sum (map w (f x))) l).
Proof.
  induction l as [|x l IH]; [done|]. cbn [flat_map map].
  by rewrite map_app, list_sum_app, list_sum_cons, IH.
Qed.

Lemma length_list_sum {A : Type} (l : list A) :
  length l = list_sum (map (fun _ => 1) l).
Proof.
  induction l as [|x l IH]; [done|]. cbn [map length]. rewrite list_sum_cons, IH. lia.
Qed.

Section Weights.

Variable w : string -> list node -> nat.

(** The weight of what [get_characters_dir] returns. *)
Let total (cds : list char_dir) : nat :=
  list_sum (map (fun cd : char_dir => w (fst cd) (snd cd)) cds).

Let own (top : string) (c : node) : nat :=
  match c with
  | Dir name sub => if is_label name then w (OsPath.join top name) sub else 0
  | File _ => 0
  end.

Let below (top : string) (c : node) : nat :=
  list_sum (map (weigh w (OsPath.join top (node_name c))) (dir_entries c)).

Lemma total_label_children (top : string) (es : list node) :
  total (label_children top (subdirs es)) = list_sum (map (own top) es).
Proof.
  unfold total, label_children, subdirs.
  induction es as [|c es IH]; [done|]. destruct c as [name | name sub].
  - cbn [List.filter is_dir map]. by rewrite list_sum_cons, IH.
  - cbn [List.filter is_dir flat_map map node_name dir_entries].
    rewrite map_app, list_sum_app, list_sum_cons, IH. f_equal.
    unfold own, is_label. destruct (PyStr.contains "U+" name); [|done].
    cbn [map fst snd]. rewrite list_sum_cons. cbn [map list_sum fold_right]. lia.
Qed.

Lemma total_get_characters_dir_step (top : string) (es : list node) :
  Forall (fun c => forall top', total (flat_map
            (fun item : walk_item => label_children (fst (fst item)) (snd (fst item)))
            (walk_sub top' c)) = below top' c) es ->
  total (get_characters_dir top es) = list_sum (map (weigh w top) es).
Proof.
  intros IH. rewrite get_characters_dir_flat. unfold os_walk.
  cbn [flat_map fst snd]. unfold total at 1. rewrite map_app, list_sum_app.
  fold (total (label_children top (subdirs es))). rewrite total_label_children.
  rewrite flat_map_flat_map, list_sum_flat_map.
  rewrite <- list_sum_map_add. apply list_sum_map_ext.
  eapply Forall_impl; [exact IH|]. intros c Hc. cbn beta.
  fold (total (flat_map
    (fun item : walk_item => label_children (fst (fst item)) (snd (fst item)))
    (walk_sub top c))).
  rewrite Hc. by destruct c.
Qed.

Lemma total_walk_sub (c : node) :
  forall top, total (flat_map
      (fun item : walk_item => label_children (fst (fst item)) (snd (fst item)))
      (walk_sub top c)) = below top c.
Proof.
  induction c as [name | name sub IH] using node_nested_ind; intros top; [done|].
  rewrite walk_sub_dir, <- get_characters_dir_flat.
  by apply total_get_characters_dir_step.
Qed.

Lemma total_get_characters_dir (top : string) (es : list node) :
  list_sum (map (fun cd : char_dir => w (fst cd) (snd cd)) (get_characters_dir top es))
  = list_sum (map (weigh w top) es).
Proof.
  apply total_get_characters_dir_step, Forall_forall. intros c _. apply total_walk_sub.
Qed.

End Weights.

Lemma weigh_label_files (top : string) (n : node) :
  weigh (fun _ es => length (filenames_of es)) top n = label_files n.
Proof.
  revert top. induction n as [name | name sub IH] using node_nested_ind; intros top; [done|].
  cbn [weigh label_files]. f_equal. apply list_sum_map_ext.
  eapply Forall_impl; [exact IH|]. intros c Hc. apply Hc.
Qed.

Lemma weigh_label_dirs (top : string) (n : node) :
  weigh (fun _ _ => 1) top n = length (label_dir_names n).
Proof.
  revert top. induction n as [name | name sub IH] using node_nested_ind; intros top; [done|].
  cbn [weigh label_dir_names]. rewrite length_app, length_flat_map. f_equal.
  - by destruct (is_label name).
  - apply list_sum_map_ext. eapply Forall_impl; [exact IH|]. intros c Hc. apply Hc.
Qed.

(** [get_characters_dir] returns one path for each label directory. *)
Lemma length_get_characters_dir (top : string) (es : list node) :
  length (get_characters_dir top es) = length (label_dirs_in es).
Proof.
  rewrite length_list_sum. rewrite (total_get_characters_dir (fun _ _ => 1)).
  unfold label_dirs_in. rewrite length_flat_map. apply list_sum_map_ext, Forall_forall.
  intros c _. apply weigh_label_dirs.
Qed.

(** ** Flat label directories *)

Lemma flat_labels_dir (name : string) (sub : list node) :
  flat_labels (Dir name sub) = true ->
  flat_labels_in sub = true /\
  (is_label name = true -> forallb (fun c => negb (is_dir c)) sub = true).
Proof.
  cbn [flat_labels]. intros [Hown Hsub]%andb_prop. split; [done|].
  intros Hl. by rewrite Hl in Hown.
Qed.

Lemma dir_at_flat (top : string) (es : list node) (p name : string) (sub : list node) :
  flat_labels_in es = true -> dir_at top es p name sub ->
  flat_labels_in sub = true /\
  (is_label name = true -> forallb (fun c => negb (is_dir c)) sub = true).
Proof.
  intros Hflat Hd.
  induction Hd as [top es name sub Hin | top es name sub p name0 sub0 Hin Hd IH].
  - apply flat_labels_dir. unfold flat_labels_in in Hflat.
    rewrite forallb_forall in Hflat. by apply Hflat, list_elem_of_In.
  - apply IH. unfold flat_labels_in in Hflat. rewrite forallb_forall in Hflat.
    by eapply flat_labels_dir, Hflat, list_elem_of_In.
Qed.

Lemma files_only_no_dir (top : string) (es : list node) (p name : string) (sub : list node) :
  forallb (fun c => negb (is_dir c)) es = true -> ~ dir_at top es p name sub.
Proof.
  rewrite forallb_forall. intros Hfiles Hd.
  destruct Hd as [top es name sub Hin | top es name sub p name0 sub0 Hin Hd];
    apply list_elem_of_In, Hfiles in Hin; done.
Qed.

(** The walk of a directory that holds files only yields the directory
    alone. *)
Lemma os_walk_files_only (top : string) (es : list node) :
  forallb (fun c => negb (is_dir c)) es = true ->
  os_walk top es = [(top, [], filenames_of es)].
Proof.
  intros Hfiles. unfold os_walk, subdirs.
  induction es as [|c es IH]; [done|]. cbn [forallb] in Hfiles.
  apply andb_prop in Hfiles as [Hc Hes]. destruct c as [name | name sub]; [|done].
  specialize (IH Hes). injection IH as Hdirs Hwalk.
  cbn [List.filter is_dir flat_map walk_sub app]. by rewrite Hdirs, Hwalk.
Qed.

Lemma elem_of_label_dir_names (n : node) :
  forall (top l : string),
    l ∈ label_dir_names n <->
    exists p sub, dir_at top [n] p l sub /\ is_label l = true.
Proof.
  induction n as [name | name es IH] using node_nested_ind; intros top l.
  - split; [by intros ?%elem_of_nil|].
    intros (p & sub & Hd & _). apply dir_at_single in Hd as (? & ? & ? & _). done.
  - cbn [label_dir_names]. rewrite elem_of_app, elem_of_flat_map. split.
    + intros [Hown | (c & Hc & Hl)].
      * destruct (is_label name) eqn:Hlabel; [|by apply elem_of_nil in Hown].
        apply list_elem_of_singleton in Hown as ->.
        exists (OsPath.join top name), es. split; [|done].
        apply dir_at_child. set_solver.
      * rewrite Forall_forall in IH.
        apply (IH c Hc (OsPath.join top name)) in Hl as (p & sub & Hd & Hlabel).
        exists p, sub. split; [|done]. apply dir_at_single.
        exists name, es. split; [done|]. right. apply dir_at_entry. eauto.
    + intros (p & sub & Hd & Hlabel).
      apply dir_at_single in Hd as (nm & es' & Heq & Hd). injection Heq as <- <-.
      destruct Hd as [(-> & -> & ->) | Hd].
      * left. rewrite Hlabel. set_solver.
      * right. apply dir_at_entry in Hd as (c & Hc & Hd). exists c. split; [done|].
        rewrite Forall_forall in IH. apply (IH c Hc (OsPath.join top name)). eauto.
Qed.

Lemma elem_of_label_dirs_in (top : string) (es : list node) (l : string) :
  l ∈ label_dirs_in es <->
  exists p sub, dir_at top es p l sub /\ is_label l = true.
Proof.
  unfold label_dirs_in. rewrite elem_of_flat_map. split.
  - intros (c & Hc & Hl). apply (elem_of_label_dir_names c top) in Hl as (p & sub & Hd & Hl).
    exists p, sub. split; [|done]. apply dir_at_entry. eauto.
  - intros (p & sub & Hd & Hl). apply dir_at_entry in Hd as (c & Hc & Hd).
    exists c. split; [done|]. apply (elem_of_label_dir_names c top). eauto.
Qed.

(** With flat label directories, what the walks reach are the label
    directories themselves. *)
Lemma under_label_flat (top : string) (es : list node) (p name : string) (sub : list node) :
  flat_labels_in es = true ->
  under_label top es p name sub <->
  dir_at top es p name sub /\ is_label name = true.
Proof.
  intros Hflat. split.
  - intros (lp & ln & les & Hd & Hl & [Heq | Hd']).
    + by injection Heq as -> -> ->.
    + destruct (dir_at_flat _ _ _ _ _ Hflat Hd) as [_ Hfiles].
      by apply (files_only_no_dir _ _ _ _ _ (Hfiles Hl)) in Hd'.
  - intros [Hd Hl]. exists p, name, sub. auto.
Qed.

Lemma length_item_images (item : walk_item) :
  length (item_images item) = length (snd item).
Proof. unfold item_images. apply length_map. Qed.

Lemma length_records_flat (top : string) (es : list node) :
  flat_labels_in es = true ->
  length (flat_map item_images (walked (get_characters_dir top es))) = label_files_in es.
Proof.
  intros Hflat. unfold walked. rewrite flat_map_flat_map, length_flat_map.
  rewrite (list_sum_map_ext _ (fun cd : char_dir => length (filenames_of (snd cd)))).
  - rewrite (total_get_characters_dir (fun _ sub => length (filenames_of sub))).
    unfold label_files_in. apply list_sum_map_ext, Forall_forall.
    intros c _. apply weigh_label_files.
  - apply Forall_forall. intros [lp les] (ln & Hd & Hl)%elem_of_get_characters_dir.
    cbn [fst snd] in *. destruct (dir_at_flat _ _ _ _ _ Hflat Hd) as [_ Hfiles].
    rewrite (os_walk_files_only _ _ (Hfiles Hl)). cbn [flat_map].
    by rewrite app_nil_r, length_item_images.
Qed.

(** C4, as stated, fails: with a label directory inside a label
    directory, the raw folder [U+4E00/{a.jpg, U+4E01/b.jpg}] holds two
    files, both directly inside its two label directories, and
    [load_img_list] returns three records: [b.jpg] is reached by the
    walk of [U+4E00] and again by the walk of [U+4E01]. *)
Lemma nested_label_records_twice :
  list_sum (map count_files Scenario.nested_labels) = 2 /\
  label_files_in Scenario.nested_labels = 2 /\
  label_dirs_in Scenario.nested_labels = ["U+4E00"; "U+4E01"] /\
  fst (load_img_list "" Scenario.nested_labels) =
    [ {| image_path := "raw/U+4E00/a.jpg"; code_point := "U+4E00" |};
      {| image_path := "raw/U+4E00/U+4E01/b.jpg"; code_point := "U+4E01" |};
      {| image_path := "raw/U+4E00/U+4E01/b.jpg"; code_point := "U+4E01" |} ] /\
  length (fst (load_img_list "" Scenario.nested_labels)) <> 2.
Proof.
  split; [vm_compute; reflexivity|]. split; [vm_compute; reflexivity|].
  split; [vm_compute; reflexivity|]. split; [vm_compute; reflexivity|].
  vm_compute. lia.
Qed.

(** C4, amended: when the label directories of the raw folder hold
    files only (and entry names are free of ['/']), [load_img_list]
    returns exactly one record for each of the [N] files directly inside
    label directories; its labels are exactly the names of the [K]
    label directories, so there are at most [K] of them, and exactly
    [K] when these names are pairwise distinct. *)
Theorem flat_index_complete (root : string) (es : list node) :
  wf_listing es = true ->
  flat_labels_in es = true ->
  length (fst (load_img_list root es)) = label_files_in es /\
  (forall l, l ∈ snd (load_img_list root es) <-> l ∈ label_dirs_in es) /\
  length (snd (load_img_list root es)) <= length (label_dirs_in es) /\
  (NoDup (label_dirs_in es) ->
   length (snd (load_img_list root es)) = length (label_dirs_in es)).
Proof.
  intros Hwf Hflat.
  assert (Hlabels : forall l, l ∈ snd (load_img_list root es) <-> l ∈ label_dirs_in es).
  { intros l. rewrite elem_of_labels.
    rewrite (elem_of_label_dirs_in (OsPath.join root raw_folder)). split.
    - intros (p & name & sub & Hu & ->).
      apply (under_label_flat _ _ _ _ _ Hflat) in Hu as [Hd Hl].
      rewrite (dir_at_basename _ _ _ _ _ Hwf Hd). eauto.
    - intros (p & sub & Hd & Hl). exists p, l, sub. split.
      + by apply under_label_flat.
      + by rewrite (dir_at_basename _ _ _ _ _ Hwf Hd). }
  assert (Hnodup : NoDup (snd (load_img_list root es))).
  { rewrite load_img_list_labels. apply NoDup_elements. }
  split; [|split; [exact Hlabels|split]].
  - rewrite load_img_list_records. by apply length_records_flat.
  - apply submseteq_length, NoDup_submseteq; [exact Hnodup|].
    intros l. apply Hlabels.
  - intros Hnames. apply Permutation_length, NoDup_Permutation; done.
Qed.

Lemma flat_index_complete_witness :
  wf_listing Scenario.two_labels = true /\
  flat_labels_in Scenario.two_labels = true /\
  length (fst (load_img_list "/data" Scenario.two_labels)) =
    label_files_in Scenario.two_labels /\
  length (snd (load_img_list "/data" Scenario.two_labels)) <=
    length (label_dirs_in Scenario.two_labels).
Proof.
  split; [vm_compute; reflexivity|]. split; [vm_compute; reflexivity|].
  destruct (flat_index_complete "/data" Scenario.two_labels eq_refl eq_refl)
    as (Hrecords & _ & Hle & _).
  exact (conj Hrecords Hle).
Defined.

(** The end-to-end scenario of the dataset layout: two records, two
    labels. *)
Example two_labels_index :
  fst (load_img_list "/data" Scenario.two_labels) =
    [ {| image_path := "/data/raw/200003076/characters/U+4E00/a.jpg";
         code_point := "U+4E00" |};
      {| image_path := "/data/raw/200003076/characters/U+4E01/b.jpg";
         code_point := "U+4E01" |} ] /\
  (forall l, l ∈ snd (load_img_list "/data" Scenario.two_labels) <->
             l = "U+4E00" \/ l = "U+4E01").
Proof.
  split; [vm_compute; reflexivity|]. intros l.
  rewrite list_elem_of_In. vm_compute. intuition congruence.
Qed.

(** ** The accessor *)

Lemma list_getitem_nonneg {A : Type} (l : list A) (i : nat) (x : A) :
  l !! i = Some x -> list_getitem l (Z.of_nat i) = Ok x.
Proof.
  intros Hx. pose proof (lookup_lt_Some _ _ _ Hx) as Hlt. unfold list_getitem.
  destruct (Z.ltb_spec (Z.of_nat i) 0) as [?|_]; [lia|].
  destruct (Z.ltb_spec (Z.of_nat i) 0) as [?|_]; [lia|].
  destruct (Z.leb_spec (Z.of_nat (length l)) (Z.of_nat i)) as [?|_]; [lia|].
  cbn [orb]. by rewrite Nat2Z.id, Hx.
Qed.

Lemma list_getitem_len {A : Type} (l : list A) :
  list_getitem l (Z.of_nat (length l)) = Raise IndexError.
Proof.
  unfold list_getitem.
  destruct (Z.ltb_spec (Z.of_nat (length l)) 0) as [?|_]; [lia|].
  destruct (Z.ltb_spec (Z.of_nat (length l)) 0) as [?|_]; [lia|].
  destruct (Z.leb_spec (Z.of_nat (length l)) (Z.of_nat (length l))) as [_|?]; [done|lia].
Qed.

(** A negative index [-k] within range reads position [len(l) - k]. *)
Lemma list_getitem_negative {A : Type} (l : list A) (k : Z) :
  (1 <= k <= Z.of_nat (length l))%Z ->
  list_getitem l (- k) = list_getitem l (Z.of_nat (length l) - k).
Proof.
  intros Hk. unfold list_getitem.
  destruct (Z.ltb_spec (- k) 0) as [_|?]; [|lia].
  destruct (Z.ltb_spec (Z.of_nat (length l) - k) 0) as [?|_]; [lia|].
  by replace (- k + Z.of_nat (length l))%Z with (Z.of_nat (length l) - k)%Z by lia.
Qed.

Lemma list_getitem_below {A : Type} (l : list A) (k : Z) :
  (Z.of_nat (length l) < k)%Z -> list_getitem l (- k) = Raise IndexError.
Proof.
  intros Hk. unfold list_getitem.
  destruct (Z.ltb_spec (- k) 0) as [_|?]; [|lia].
  destruct (Z.ltb_spec (- k + Z.of_nat (length l)) 0) as [_|?]; [done|lia].
Qed.

Lemma list_getitem_in_range {A : Type} (l : list A) (i : Z) :
  (0 <= i < Z.of_nat (length l))%Z ->
  exists x, l !! Z.to_nat i = Some x /\ list_getitem l i = Ok x.
Proof.
  intros Hi. destruct (lookup_lt_is_Some_2 l (Z.to_nat i)) as [x Hx]; [lia|].
  exists x. split; [done|]. rewrite <- (Z2Nat.id i) by lia.
  by apply list_getitem_nonneg.
Qed.

Section AccessorFacts.

Context {Image : Type}.
Variable imread : string -> option Image.

Lemma build_sample_no_index_error (self : CharShapes Image) (info : img_info) :
  build_sample imread self info <> Raise IndexError.
Proof.
  unfold build_sample. destruct (imread (image_path info)); [|done].
  by destruct (transform self).
Qed.

(** [__getitem__] reads [root], [target_transform] and [classes_list]
    nowhere. *)
Lemma getitem_ext (a b : CharShapes Image) (idx : Z) :
  transform a = transform b -> img_list a = img_list b ->
  getitem imread a idx = getitem imread b idx.
Proof.
  intros Ht Hl. unfold getitem, build_sample. by rewrite Ht, Hl.
Qed.

Lemma getitem_in_range (self : CharShapes Image) (i : Z) :
  (0 <= i < Z.of_nat (len self))%Z ->
  exists info, img_list self !! Z.to_nat i = Some info /\
               getitem imread self i = build_sample imread self info.
Proof.
  intros Hi. destruct (list_getitem_in_range (img_list self) i Hi) as (info & Hinfo & Hget).
  exists info. split; [done|]. unfold getitem. by rewrite Hget.
Qed.

End AccessorFacts.

(** C1, as stated, fails: on an accessor that holds one record,
    [get(-1)] does not raise; it returns the sample of the last
    record. *)
Lemma getitem_minus_one_returns_last :
  len Scenario.one_record = 1 /\
  getitem Scenario.decode_all Scenario.one_record (-1) =
    Ok {| sample_image := tt; sample_code_point := "U+4E00" |}.
Proof. split; vm_compute; reflexivity. Qed.

(** C1, amended: [get(size())] fails with [IndexError] on every
    accessor; [get(-1)] fails with [IndexError] only on an empty
    accessor and otherwise addresses the last record, as
    [get(size()-1)] does; when [size() > 0], [get(0)] and
    [get(size()-1)] never fail with [IndexError]: each reads its record
    and returns a sample whenever the image of that record decodes. *)
Theorem getitem_bounds {Image : Type} (imread : string -> option Image)
    (self : CharShapes Image) :
  getitem imread self (Z.of_nat (len self)) = Raise IndexError /\
  (len self = 0 -> getitem imread self (-1) = Raise IndexError) /\
  (0 < len self ->
   getitem imread self (-1) = getitem imread self (Z.of_nat (len self) - 1) /\
   forall i : Z, i = 0%Z \/ i = (Z.of_nat (len self) - 1)%Z ->
     exists info,
       img_list self !! Z.to_nat i = Some info /\
       getitem imread self i = build_sample imread self info /\
       getitem imread self i <> Raise IndexError /\
       (forall image, imread (image_path info) = Some image ->
                      exists s, getitem imread self i = Ok s)).
Proof.
  split; [|split].
  - unfold getitem, len. by rewrite list_getitem_len.
  - intros Hempty. unfold getitem, len in *. change (-1)%Z with (- (1))%Z.
    rewrite (list_getitem_below (img_list self) 1); [done|lia].
  - intros Hpos. split.
    + unfold getitem, len in *. change (-1)%Z with (- (1))%Z.
      rewrite (list_getitem_negative (img_list self) 1); [done|lia].
    + intros i Hi.
      destruct (getitem_in_range imread self i) as (info & Hinfo & Hget); [lia|].
      exists info. split; [done|]. split; [done|]. rewrite Hget. split.
      * apply build_sample_no_index_error.
      * intros image Himage. unfold build_sample. rewrite Himage.
        destruct (transform self); eauto.
Qed.

Lemma getitem_bounds_witness :
  0 < len Scenario.one_record /\
  getitem Scenario.decode_all Scenario.one_record (Z.of_nat (len Scenario.one_record))
    = Raise IndexError /\
  getitem Scenario.decode_all Scenario.one_record (-1) =
    getitem Scenario.decode_all Scenario.one_record
      (Z.of_nat (len Scenario.one_record) - 1).
Proof.
  assert (Hpos : 0 < len Scenario.one_record) by (vm_compute; lia).
  destruct (getitem_bounds Scenario.decode_all Scenario.one_record)
    as (Hlen & _ & Hlast).
  split; [exact Hpos|]. split; [exact Hlen|]. exact (proj1 (Hlast Hpos)).
Defined.

(** C9: [target_transform] is stored and never applied; two accessors
    with the same [root], [transform] and index return the same result
    for every index, whatever their [target_transform]. *)
Theorem target_transform_never_applied {Image : Type} (imread : string -> option Image)
    (a b : CharShapes Image) :
  root a = root b ->
  transform a = transform b ->
  img_list a = img_list b ->
  forall idx : Z, getitem imread a idx = getitem imread b idx.
Proof. intros _ Ht Hl idx. by apply getitem_ext. Qed.

Lemma target_transform_never_applied_witness :
  root Scenario.plain_target = root Scenario.marked_target /\
  transform Scenario.plain_target = transform Scenario.marked_target /\
  img_list Scenario.plain_target = img_list Scenario.marked_target /\
  target_transform Scenario.plain_target <> target_transform Scenario.marked_target /\
  forall idx : Z,
    getitem Scenario.decode_all Scenario.plain_target idx =
    getitem Scenario.decode_all Scenario.marked_target idx.
Proof.
  split; [reflexivity|]. split; [reflexivity|]. split; [reflexivity|].
  split; [discriminate|].
  exact (target_transform_never_applied Scenario.decode_all
           Scenario.plain_target Scenario.marked_target eq_refl eq_refl eq_refl).
Defined.

(** C10: on an accessor with [size() > 0], for [1 <= k <= size()],
    [get(-k)] does not fail with [IndexError]: it is [get(size()-k)],
    built from record number [size()-k], and returns that record's
    sample (through [transform] when there is one) as soon as the
    record's image decodes. *)
Theorem getitem_negative_index {Image : Type} (imread : string -> option Image)
    (self : CharShapes Image) (k : Z) :
  (1 <= k <= Z.of_nat (len self))%Z ->
  exists info,
    img_list self !! Z.to_nat (Z.of_nat (len self) - k) = Some info /\
    getitem imread self (- k) = getitem imread self (Z.of_nat (len self) - k) /\
    getitem imread self (- k) = build_sample imread self info /\
    getitem imread self (- k) <> Raise IndexError /\
    (forall image, imread (image_path info) = Some image ->
       getitem imread self (- k) =
         Ok (let sample := {| sample_image := image;
                              sample_code_point := code_point info |} in
             match transform self with
             | Some f => f sample
             | None => sample
             end)).
Proof.
  intros Hk.
  assert (Hneg : getitem imread self (- k) = getitem imread self (Z.of_nat (len self) - k)).
  { unfold getitem, len in *. by rewrite list_getitem_negative. }
  destruct (getitem_in_range imread self (Z.of_nat (len self) - k))
    as (info & Hinfo & Hget); [lia|].
  exists info. split; [done|]. split; [done|]. rewrite Hneg, Hget.
  split; [done|]. split; [apply build_sample_no_index_error|].
  intros image Himage. unfold build_sample. rewrite Himage.
  by destruct (transform self).
Qed.

Lemma getitem_negative_index_witness :
  (1 <= 2 <= Z.of_nat (len Scenario.plain_target))%Z /\
  exists info,
    img_list Scenario.plain_target
      !! Z.to_nat (Z.of_nat (len Scenario.plain_target) - 2) = Some info /\
    getitem Scenario.decode_all Scenario.plain_target (- (2)) =
      build_sample Scenario.decode_all Scenario.plain_target info.
Proof.
  assert (Hk : (1 <= 2 <= Z.of_nat (len Scenario.plain_target))%Z)
    by (vm_compute; split; discriminate).
  split; [exact Hk|].
  destruct (getitem_negative_index Scenario.decode_all Scenario.plain_target 2 Hk)
    as (info & Hinfo & _ & Hget & _).
  exists info. exact (conj Hinfo Hget).
Defined.

(** ** The integrity check *)

Lemma chunk_size_pos : (0 < chunk_size)%N.
Proof. reflexivity. Qed.

Lemma read_skip_bytes (n : N) (rest : list byte) :
  read_bytes n rest ++ skip_bytes n rest = rest.
Proof.
  revert n. induction rest as [|b rest IH]; intros n; [done|].
  cbn [read_bytes skip_bytes]. destruct (n =? 0)%N; [done|].
  cbn [app]. by rewrite IH.
Qed.

Lemma read_bytes_nil (n : N) (rest : list byte) :
  (0 < n)%N -> read_bytes n rest = [] -> rest = [].
Proof.
  intros Hn. destruct rest as [|b rest]; [done|]. cbn [read_bytes].
  destruct (N.eqb_spec n 0) as [?|_]; [lia|done].
Qed.

Lemma length_skip_bytes (n : N) (rest : list byte) :
  length (skip_bytes n rest) <= length rest.
Proof.
  revert n. induction rest as [|b rest IH]; intros n; [done|].
  cbn [skip_bytes]. destruct (n =? 0)%N; [done|].
  cbn [length]. specialize (IH (N.pred n)). lia.
Qed.

Lemma length_skip_bytes_lt (n : N) (rest : list byte) :
  (0 < n)%N -> rest <> [] -> length (skip_bytes n rest) < length rest.
Proof.
  intros Hn Hrest. destruct rest as [|b rest]; [done|]. cbn [skip_bytes].
  destruct (N.eqb_spec n 0) as [?|_]; [lia|].
  cbn [length]. pose proof (length_skip_bytes (N.pred n) rest). lia.
Qed.

(** With fuel above the length of the content, the chunks read make
    up the whole content: the loop runs to the end of the file. *)
Lemma concat_read_chunks (fuel : nat) (content : list byte) :
  length content < fuel -> concat (read_chunks fuel content) = content.
Proof.
  revert content. induction fuel as [|fuel IH]; intros content Hfuel; [lia|].
  cbn [read_chunks].
  destruct (read_bytes chunk_size content) as [|b chunk] eqn:Hread.
  - symmetry. by apply (read_bytes_nil chunk_size), Hread.
  - cbn [concat]. rewrite IH.
    + by rewrite <- Hread, read_skip_bytes.
    + assert (Hne : content <> []) by (intros ->; done).
      pose proof (length_skip_bytes_lt chunk_size content chunk_size_pos Hne). lia.
Qed.

Lemma concat_file_chunks (content : list byte) :
  concat (file_chunks content) = content.
Proof. apply concat_read_chunks. lia. Qed.

Section Integrity.

Context `{Hashlib}.

(** Feeding the digest chunk by chunk digests the concatenation. *)
Lemma fold_md5_update (chunks : list (list byte)) (s : md5_state) :
  fold_left md5_update chunks s = md5_update s (concat chunks).
Proof.
  revert s. induction chunks as [|chunk chunks IH]; intros s; cbn [fold_left concat].
  - by rewrite md5_update_nil.
  - by rewrite IH, md5_update_app.
Qed.

Lemma check_integrity_file (files : file_store) (fpath md5 : string) (content : list byte) :
  files !! fpath = Some content ->
  check_integrity files fpath md5 = String.eqb (md5_hex content) md5.
Proof.
  intros Hfile. unfold check_integrity, md5_hex. rewrite Hfile.
  rewrite fold_md5_update, concat_file_chunks.
  by destruct (String.eqb _ md5).
Qed.

Lemma check_integrity_missing (files : file_store) (fpath md5 : string) :
  files !! fpath = None -> check_integrity files fpath md5 = false.
Proof. intros Hfile. unfold check_integrity. by rewrite Hfile. Qed.

End Integrity.

(** C5: [_check_integrity] returns [True] exactly when the path names
    a regular file whose MD5 hex digest equals the expected checksum,
    character for character; it returns [False] for a path that names
    no file. *)
Theorem check_integrity_iff `{Hashlib} (files : file_store) (fpath md5 : string) :
  (check_integrity files fpath md5 = true <->
   exists content, files !! fpath = Some content /\ md5_hex content = md5) /\
  (files !! fpath = None -> check_integrity files fpath md5 = false).
Proof.
  split; [|apply check_integrity_missing].
  destruct (files !! fpath) as [content|] eqn:Hfile.
  - rewrite (check_integrity_file _ _ _ _ Hfile), String.eqb_eq. split.
    + intros Hmd5. by exists content.
    + intros (content' & [= <-] & Hmd5). done.
  - rewrite (check_integrity_missing _ _ _ Hfile). split; [done|].
    intros (content & [=] & _).
Qed.

Lemma check_integrity_iff_witness :
  Scenario.verified_files !! "data/raw/missing.zip" = None /\
  check_integrity (H := Scenario.plain_digest) Scenario.verified_files
    "data/raw/missing.zip" "472edecf9ebb1aa73937ad298a0664a1" = false.
Proof.
  assert (Hnone : Scenario.verified_files !! "data/raw/missing.zip" = None)
    by (vm_compute; reflexivity).
  split; [exact Hnone|].
  exact (proj2 (check_integrity_iff (H := Scenario.plain_digest)
                  Scenario.verified_files "data/raw/missing.zip"
                  "472edecf9ebb1aa73937ad298a0664a1") Hnone).
Defined.

(** The comparison is exact: a digest that differs in letter case
    only does not verify. *)
Example check_integrity_case_sensitive :
  check_integrity (H := Scenario.plain_digest)
    {[ "a.zip" := list_byte_of_string "ab12" ]} "a.zip" "ab12" = true /\
  check_integrity (H := Scenario.plain_digest)
    {[ "a.zip" := list_byte_of_string "ab12" ]} "a.zip" "AB12" = false.
Proof. split; vm_compute; reflexivity. Qed.

(** ** The acquisition *)

Lemma rpartition_download_url (book_id : string) :
  no_sep book_id = true ->
  PyStr.rpartition_sep_2 (download_url book_id) = archive_name book_id.
Proof.
  intros Hid. unfold PyStr.rpartition_sep_2, download_url, archive_name.
  rewrite <- append_assoc.
  change ("/" +:+ book_id +:+ ".zip") with (String PyStr.sep (book_id +:+ ".zip")).
  apply after_last_sep_append. by apply no_sep_append.
Qed.

Section DownloadFacts.

Context `{Hashlib}.
Variable out : outside.

(** The request fails: [urlopen] raises and nothing else happens. *)
Lemma download_book_unreachable (root book_id : string) (w : world) :
  remote out (download_url book_id) = None ->
  download_book out root book_id w =
    (Raise (URLError (download_url book_id)),
     {| files := files w; dirs := dirs w;
        trace := trace w ++ [Urlopen (download_url book_id)] |}).
Proof.
  intros Hremote. unfold download_book, urlopen, bind, emit, raise.
  by rewrite Hremote.
Qed.

(** The archive verifies: the request is sent all the same, and the
    loop moves on without reading the body. *)
Lemma download_book_verified (root book_id md5 : string) (body : list byte) (w : world) :
  no_sep book_id = true ->
  zips_md5 !! archive_name book_id = Some md5 ->
  remote out (download_url book_id) = Some body ->
  check_integrity (files w) (archive_path root book_id) md5 = true ->
  download_book out root book_id w =
    (Ok tt,
     {| files := files w; dirs := dirs w;
        trace := (trace w ++ [Urlopen (download_url book_id)])
                 ++ [Print ("File already downloaded and verified: "
                            +:+ archive_name book_id)] |}).
Proof.
  intros Hid Hmd5 Hremote Hcheck.
  unfold download_book, urlopen, zips_md5_getitem, print, bind, emit, ret.
  rewrite Hremote, (rpartition_download_url _ Hid), Hmd5. cbn [files dirs trace].
  fold (archive_path root book_id). by rewrite Hcheck.
Qed.

(** The archive does not verify: the body is read and written over
    the file, and extraction starts from that state. *)
Lemma download_book_unverified (root book_id md5 : string) (body : list byte) (w : world) :
  no_sep book_id = true ->
  zips_md5 !! archive_name book_id = Some md5 ->
  remote out (download_url book_id) = Some body ->
  check_integrity (files w) (archive_path root book_id) md5 = false ->
  download_book out root book_id w =
    (let* _ := extractall out (archive_path root book_id)
                 (PyStr.replace ".zip" "" (archive_path root book_id)) in
     unlink (archive_path root book_id))%cmd
      {| files := <[archive_path root book_id := body]> (files w);
         dirs := dirs w;
         trace := trace w ++
           [ Urlopen (download_url book_id);
             Print ("Downloading " +:+ download_url book_id);
             Read (download_url book_id);
             WriteFile (archive_path root book_id) body;
             Print ("Extracting data: " +:+ archive_name book_id) ] |}.
Proof.
  intros Hid Hmd5 Hremote Hcheck.
  unfold download_book, urlopen, zips_md5_getitem, print, read, write_file,
    bind, emit, ret.
  rewrite Hremote, (rpartition_download_url _ Hid), Hmd5. cbn [files dirs trace fst snd].
  fold (archive_path root book_id). rewrite Hcheck. cbn [files dirs trace].
  by rewrite <- !app_assoc.
Qed.

End DownloadFacts.

Section DownloadRuns.

Context `{Hashlib}.
Variable out : outside.





End DownloadRuns.

Lemma prefix_append (s t : string) : String.prefix s (s +:+ t) = true.
Proof.
  induction s as [|c s IH]; [by destruct t|].
  rewrite append_cons. cbn [String.prefix]. by destruct (ascii_dec c c).
Qed.

Lemma join_append (d n t : string) :
  PyStr.startswith_sep t = false ->
  OsPath.join d (n +:+ t) = OsPath.join d n +:+ t.
Proof.
  intros Ht. unfold OsPath.join. destruct n as [|c n].
  - change ("" +:+ t) with t. rewrite Ht. cbn [PyStr.startswith_sep].
    destruct (String.eqb d "" || PyStr.endswith_sep d); by rewrite !append_assoc.
  - rewrite append_cons. cbn [PyStr.startswith_sep].
    destruct (Ascii.eqb c PyStr.sep); [by rewrite append_cons|].
    destruct (String.eqb d "" || PyStr.endswith_sep d); by rewrite !append_assoc.
Qed.

Lemma prefix_inv (s u : string) :
  String.prefix s u = true -> exists t, u = s +:+ t.
Proof.
  revert u. induction s as [|c s IH]; intros u; [by exists u|].
  destruct u as [|d u]; [done|]. cbn [String.prefix].
  destruct (ascii_dec c d) as [->|]; [|done].
  intros [t ->]%IH. by exists t.
Qed.

(** ** Paths of archives and of extracted members *)

Lemma count_sep_append (s t : string) :
  count_sep (s +:+ t) = count_sep s + count_sep t.
Proof.
  induction s as [|c s IH]; [done|].
  rewrite append_cons. cbn [count_sep]. rewrite IH. lia.
Qed.

Lemma count_sep_no_sep (s : string) : no_sep s = true -> count_sep s = 0.
Proof.
  induction s as [|c s IH]; [done|]. cbn [no_sep count_sep].
  intros [Hc Hs]%andb_prop. apply negb_true_iff in Hc. by rewrite Hc, IH.
Qed.

Lemma count_sep_prefix (s u : string) :
  String.prefix s u = true -> count_sep s <= count_sep u.
Proof. intros [t ->]%prefix_inv. rewrite count_sep_append. lia. Qed.

Lemma drop_chars_append (s t : string) :
  PyStr.drop_chars (String.length s) (s +:+ t) = t.
Proof. induction s as [|c s IH]; [done|]. exact IH. Qed.

(** [str.replace] of a text without ['/'] by another one keeps the
    separators of a path. *)
Lemma count_sep_replace_fuel (fuel : nat) (old new s : string) :
  no_sep old = true -> no_sep new = true ->
  count_sep (PyStr.replace_fuel fuel old new s) = count_sep s.
Proof.
  intros Hold Hnew. revert s. induction fuel as [|fuel IH]; intros s; [done|].
  destruct s as [|c s]; [done|]. cbn [PyStr.replace_fuel].
  destruct (String.prefix old (String c s)) eqn:Hp.
  - apply prefix_inv in Hp as [t Ht]. rewrite Ht, drop_chars_append.
    rewrite !count_sep_append, IH.
    by rewrite (count_sep_no_sep _ Hold), (count_sep_no_sep _ Hnew).
  - cbn [count_sep]. by rewrite IH.
Qed.

Lemma archive_path_raw (root book_id : string) :
  no_sep book_id = true ->
  archive_path root book_id
  = OsPath.join (OsPath.join root raw_folder) "" +:+ archive_name book_id.
Proof.
  intros Hid. unfold archive_path, OsPath.join3.
  apply (join_append (OsPath.join root raw_folder) "" (archive_name book_id)).
  apply startswith_sep_no_sep. by apply no_sep_append.
Qed.

Lemma count_sep_archive_path (root book_id : string) :
  no_sep book_id = true ->
  count_sep (archive_path root book_id)
  = count_sep (OsPath.join (OsPath.join root raw_folder) "").
Proof.
  intros Hid. rewrite archive_path_raw by done.
  rewrite count_sep_append, (count_sep_no_sep (archive_name book_id)); [lia|].
  by apply no_sep_append.
Qed.

Lemma count_sep_extraction_dir (root book_id : string) :
  no_sep book_id = true ->
  count_sep (extraction_dir root book_id)
  = count_sep (OsPath.join (OsPath.join root raw_folder) "").
Proof.
  intros Hid. unfold extraction_dir, PyStr.replace.
  rewrite count_sep_replace_fuel by done. by apply count_sep_archive_path.
Qed.

(** No archive of the raw folder lies beneath the directory an
    archive is extracted into, whatever [root] is: the extraction
    directory has as many separators as the archive, and a path
    beneath it has one more. *)
Lemma archive_not_beneath (root book_id id' : string) :
  no_sep book_id = true -> no_sep id' = true ->
  beneath (extraction_dir root book_id) (archive_path root id') = false.
Proof.
  intros Hid Hid'. unfold beneath.
  destruct (String.prefix _ _) eqn:Hp; [|done].
  apply count_sep_prefix in Hp.
  rewrite count_sep_append, count_sep_extraction_dir, count_sep_archive_path in Hp
    by done.
  cbn [count_sep] in Hp. cbn in Hp. lia.
Qed.

Lemma beneath_member_path (target_dir name : string) :
  beneath target_dir (member_path target_dir name) = true.
Proof. unfold beneath, member_path. rewrite <- append_assoc. apply prefix_append. Qed.

(** Extraction writes beneath the extraction directory only. *)
Lemma write_members_lookup (target_dir : string) (members : list (string * list byte))
    (fs : file_store) (p : string) :
  beneath target_dir p = false ->
  write_members target_dir members fs !! p = fs !! p.
Proof.
  intros Hp. unfold write_members. revert fs.
  induction members as [|[name content] members IH]; intros fs; [done|].
  cbn [fold_left fst snd]. rewrite IH. apply lookup_insert_ne.
  intros <-. by rewrite beneath_member_path in Hp.
Qed.

(** ** The raw folder *)

(** A directory that holds a regular file exists. *)
Lemma dir_exists_file (w : world) (d n : string) (content : list byte) :
  no_sep n = true ->
  files w !! OsPath.join d n = Some content ->
  dir_exists w d = true.
Proof.
  intros Hn Hfile. unfold dir_exists. apply orb_true_intro. right.
  apply existsb_exists. exists (OsPath.join d n). split.
  - apply in_map_iff. exists (OsPath.join d n, content). split; [done|].
    by apply list_elem_of_In, elem_of_map_to_list.
  - assert (Heq : OsPath.join d n = OsPath.join d "" +:+ n)
      by (apply (join_append d "" n); by apply startswith_sep_no_sep).
    rewrite Heq. apply prefix_append.
Qed.

Lemma dir_exists_made (w : world) (d : string) :
  d ∈ dirs w -> dir_exists w d = true.
Proof.
  intros Hd. unfold dir_exists. apply orb_true_intro. left.
  by apply bool_decide_eq_true.
Qed.

(** [download] with the outcome of [os.makedirs] spelled out. *)
Lemma download_unfold `{Hashlib} (out : outside) (root : string) (w : world) :
  download out root w =
  if negb (dir_exists w (OsPath.join root raw_folder))
     && mkdir_denied out (OsPath.join root raw_folder)
  then (Raise (OSError (OsPath.join root raw_folder)), w)
  else for_each book_ids (download_book out root)
         {| files := files w;
            dirs := {[OsPath.join root raw_folder]} ∪ dirs w;
            trace := trace w |}.
Proof.
  unfold download, bind, makedirs_exist_ok.
  by destruct (negb (dir_exists w (OsPath.join root raw_folder))
               && mkdir_denied out (OsPath.join root raw_folder)).
Qed.

Lemma download_upto_unfold `{Hashlib} (out : outside) (root : string) (k : nat) (w : world) :
  download_upto out root k w =
  if negb (dir_exists w (OsPath.join root raw_folder))
     && mkdir_denied out (OsPath.join root raw_folder)
  then (Raise (OSError (OsPath.join root raw_folder)), w)
  else for_each (take k book_ids) (download_book out root)
         {| files := files w;
            dirs := {[OsPath.join root raw_folder]} ∪ dirs w;
            trace := trace w |}.
Proof.
  unfold download_upto, bind, makedirs_exist_ok.
  by destruct (negb (dir_exists w (OsPath.join root raw_folder))
               && mkdir_denied out (OsPath.join root raw_folder)).
Qed.

(** With the archive of a book on disk, the raw folder is there and
    [os.makedirs] passes. *)
Lemma makedirs_passes_archive (w : world) (root book_id : string) (content : list byte)
    (denied : bool) :
  no_sep book_id = true ->
  files w !! archive_path root book_id = Some content ->
  negb (dir_exists w (OsPath.join root raw_folder)) && denied = false.
Proof.
  intros Hid Hfile. rewrite (dir_exists_file w _ (archive_name book_id) content); [done| |done].
  by apply no_sep_append.
Qed.

Section VerifiedCatalog.

Context `{Hashlib}.
Variable out : outside.

(** Over books whose archives all verify, the loop sends one request
    per book, reads no body and leaves the files as they are. *)
Lemma for_each_verified (root : string) (ids : list string) (w : world) :
  (forall book_id, book_id ∈ ids ->
     no_sep book_id = true /\
     exists md5 body,
       zips_md5 !! archive_name book_id = Some md5 /\
       remote out (download_url book_id) = Some body /\
       check_integrity (files w) (archive_path root book_id) md5 = true) ->
  for_each ids (download_book out root) w =
    (Ok tt, {| files := files w; dirs := dirs w;
               trace := trace w ++ flat_map skipped_events ids |}).
Proof.
  revert w. induction ids as [|book_id ids IH]; intros w Hall.
  - cbn [for_each flat_map]. rewrite app_nil_r. by destruct w.
  - destruct (Hall book_id) as (Hid & md5 & body & Hmd5 & Hbody & Hcheck);
      [apply list_elem_of_here|].
    cbn [for_each]. unfold bind.
    rewrite (download_book_verified out root book_id md5 body w Hid Hmd5 Hbody Hcheck).
    rewrite IH.
    + cbn [files dirs trace flat_map skipped_events app].
      by rewrite <- !app_assoc.
    + intros id' Hin. cbn [files]. apply Hall. by apply list_elem_of_further.
Qed.

(** With the host unreachable, [download] raises at the first book,
    also when every archive is present and verified. *)
Lemma download_unreachable (root : string) (w : world) :
  (forall url, remote out url = None) ->
  dir_exists w (OsPath.join root raw_folder) = true ->
  fst (download out root w) = Raise (URLError (download_url "200003076")).
Proof.
  intros Hdown Hraw. rewrite download_unfold, Hraw. cbn [negb andb]. unfold book_ids.
  cbn [for_each]. unfold bind.
  by rewrite (download_book_unreachable out root "200003076" _ (Hdown _)).
Qed.

Lemma book_ids_no_sep (book_id : string) :
  book_id ∈ book_ids -> no_sep book_id = true.
Proof.
  assert (Hall : forallb no_sep book_ids = true) by reflexivity.
  rewrite forallb_forall in Hall. intros Hin. by apply Hall, list_elem_of_In.
Qed.

(** The whole catalog present and verified: fifteen requests, no body
    read, no file touched. *)
Lemma download_all_verified (root : string) (w : world) :
  (forall book_id, book_id ∈ book_ids ->
     exists md5 body,
       zips_md5 !! archive_name book_id = Some md5 /\
       remote out (download_url book_id) = Some body /\
       check_integrity (files w) (archive_path root book_id) md5 = true) ->
  download out root w =
    (Ok tt, {| files := files w;
               dirs := {[OsPath.join root raw_folder]} ∪ dirs w;
               trace := trace w ++ flat_map skipped_events book_ids |}).
Proof.
  intros Hall. rewrite download_unfold.
  destruct (Hall "200003076") as (md5 & _ & _ & _ & Hcheck); [apply list_elem_of_here|].
  unfold check_integrity in Hcheck.
  destruct (files w !! archive_path root "200003076") as [content|] eqn:Hfile; [|done].
  rewrite (makedirs_passes_archive w root "200003076" content _ eq_refl Hfile).
  rewrite for_each_verified; [done|].
  intros book_id Hin. split; [by apply book_ids_no_sep|]. cbn [files]. by apply Hall.
Qed.

End VerifiedCatalog.

(** C2, on the code: with every archive of the catalog present and
    verified, a run of [download] still opens the address of each of
    the fifteen archives before it checks the local file; only the
    reading of the bodies is skipped.  With the host unreachable the
    same run raises. *)
Theorem verified_catalog_still_requested :
  forallb (fun book_id =>
             check_integrity (H := Scenario.plain_digest) Scenario.verified_files
               (archive_path "data" book_id)
               (default "" (zips_md5 !! archive_name book_id)))
          book_ids = true /\
  fst (download (H := Scenario.plain_digest) Scenario.serve_empty "data"
         Scenario.all_verified) = Ok tt /\
  List.filter is_urlopen
    (trace (snd (download (H := Scenario.plain_digest) Scenario.serve_empty "data"
                   Scenario.all_verified)))
    = map (fun book_id => Urlopen (download_url book_id)) book_ids /\
  length (List.filter is_urlopen
    (trace (snd (download (H := Scenario.plain_digest) Scenario.serve_empty "data"
                   Scenario.all_verified)))) = 15 /\
  List.filter is_read
    (trace (snd (download (H := Scenario.plain_digest) Scenario.serve_empty "data"
                   Scenario.all_verified))) = [] /\
  fst (download (H := Scenario.plain_digest) Scenario.unreachable "data"
         Scenario.all_verified) = Raise (URLError (download_url "200003076")).
Proof. repeat split; vm_compute; reflexivity. Qed.

(** A successful run over an empty raw folder: each archive is
    written, extracted and then unlinked, so none is left for a second
    run to verify; what stays is what the archives held. *)
Example fresh_run_leaves_no_archive :
  fst (download (H := Scenario.plain_digest) Scenario.serve_fresh "data"
         Scenario.nothing_yet) = Ok tt /\
  map (fun book_id =>
         files (snd (download (H := Scenario.plain_digest) Scenario.serve_fresh "data"
                       Scenario.nothing_yet)) !! archive_path "data" book_id)
      book_ids = map (fun _ => None) book_ids /\
  files (snd (download (H := Scenario.plain_digest) Scenario.serve_fresh "data"
                Scenario.nothing_yet))
    = list_to_map
        (map (fun book_id =>
                ("data/raw/" +:+ book_id +:+ "/characters/U+3042/a.jpg",
                 list_byte_of_string "image"))
             book_ids) /\
  firstn 7 (trace (snd (download (H := Scenario.plain_digest) Scenario.serve_fresh
                          "data" Scenario.nothing_yet))) =
    [ Urlopen "http://codh.rois.ac.jp/char-shape/book/200003076/200003076.zip";
      Print "Downloading http://codh.rois.ac.jp/char-shape/book/200003076/200003076.zip";
      Read "http://codh.rois.ac.jp/char-shape/book/200003076/200003076.zip";
      WriteFile "data/raw/200003076.zip" (list_byte_of_string "fresh");
      Print "Extracting data: 200003076.zip";
      ExtractAll "data/raw/200003076.zip" "data/raw/200003076";
      Unlink "data/raw/200003076.zip" ].
Proof. repeat split; vm_compute; reflexivity. Qed.

(** * Further properties of the module *)

(** ** More on [__getitem__] and [__init__] *)

Lemma list_getitem_cases {A : Type} (l : list A) (idx : Z) :
  ((idx < - Z.of_nat (length l) \/ Z.of_nat (length l) <= idx)%Z /\
   list_getitem l idx = Raise IndexError) \/
  ((- Z.of_nat (length l) <= idx < Z.of_nat (length l))%Z /\
   exists x,
     l !! Z.to_nat (if (idx <? 0)%Z then idx + Z.of_nat (length l) else idx)%Z = Some x /\
     list_getitem l idx = Ok x).
Proof.
  destruct (Z.ltb_spec idx 0) as [Hneg|Hpos].
  - destruct (Z_lt_le_dec idx (- Z.of_nat (length l))) as [Hlow|Hin].
    + left. split; [lia|]. replace idx with (- (- idx))%Z by lia.
      apply list_getitem_below. lia.
    + right. split; [lia|].
      destruct (list_getitem_in_range l (Z.of_nat (length l) - - idx)) as (x & Hx & Hget);
        [lia|].
      exists x. replace (idx + Z.of_nat (length l))%Z
        with (Z.of_nat (length l) - - idx)%Z by lia.
      split; [done|]. replace idx with (- (- idx))%Z at 1 by lia.
      rewrite list_getitem_negative; [done|lia].
  - destruct (Z_lt_le_dec idx (Z.of_nat (length l))) as [Hin|Hhigh].
    + right. split; [lia|]. by apply list_getitem_in_range.
    + left. split; [lia|]. unfold list_getitem.
      destruct (Z.ltb_spec idx 0) as [?|_]; [lia|].
      destruct (Z.ltb_spec idx 0) as [?|_]; [lia|].
      destruct (Z.leb_spec (Z.of_nat (length l)) idx) as [_|?]; [done|lia].
Qed.

Lemma img_list_init {Image : Type} (root : string)
    (f : option (sample Image -> sample Image))
    (g : option (string -> string)) (raw : list node) :
  img_list (init root f g raw) = fst (load_img_list root raw) /\
  classes (init root f g raw) = snd (load_img_list root raw) /\
  transform (init root f g raw) = f.
Proof. unfold init, classes. by destruct (load_img_list root raw). Qed.

(** [__getitem__] raises [IndexError] exactly for the indices outside
    [-len(self) .. len(self) - 1]. *)
Theorem getitem_index_error_iff {Image : Type} (imread : string -> option Image)
    (self : CharShapes Image) (idx : Z) :
  getitem imread self idx = Raise IndexError <->
  (idx < - Z.of_nat (len self) \/ Z.of_nat (len self) <= idx)%Z.
Proof.
  unfold getitem, len.
  destruct (list_getitem_cases (img_list self) idx)
    as [[Hout ->] | [Hin (info & _ & ->)]]; [done|].
  split; [|lia]. intros Hraise. by apply build_sample_no_index_error in Hraise.
Qed.

(** For an index within range, negative or not, [__getitem__] reads
    the record at the position the index denotes; it raises
    [DecodeError] for that record's path when the image does not
    decode, without calling [transform], and otherwise returns the
    sample of the decoded image and the record's label, passed through
    [transform] when there is one. *)
Theorem getitem_in_range_result {Image : Type} (imread : string -> option Image)
    (self : CharShapes Image) (idx : Z) :
  (- Z.of_nat (len self) <= idx < Z.of_nat (len self))%Z ->
  exists info,
    img_list self
      !! Z.to_nat (if (idx <? 0)%Z then idx + Z.of_nat (len self) else idx)%Z
      = Some info /\
    getitem imread self idx =
      match imread (image_path info) with
      | None => Raise (DecodeError (image_path info))
      | Some image =>
          Ok (let sample := {| sample_image := image;
                               sample_code_point := code_point info |} in
              match transform self with
              | Some f => f sample
              | None => sample
              end)
      end.
Proof.
  intros Hidx. unfold getitem, len in *.
  destruct (list_getitem_cases (img_list self) idx)
    as [[Hout _] | [_ (info & Hinfo & ->)]]; [lia|].
  exists info. split; [done|]. unfold build_sample.
  destruct (imread (image_path info)); [|done]. by destruct (transform self).
Qed.

Lemma getitem_in_range_result_witness :
  (- Z.of_nat (len Scenario.plain_target) <= -2
   < Z.of_nat (len Scenario.plain_target))%Z /\
  exists info,
    img_list Scenario.plain_target !! 0 = Some info /\
    getitem Scenario.decode_all Scenario.plain_target (-2) =
      Ok {| sample_image := tt; sample_code_point := code_point info |}.
Proof.
  assert (Hidx : (- Z.of_nat (len Scenario.plain_target) <= -2
                  < Z.of_nat (len Scenario.plain_target))%Z)
    by (vm_compute; split; [discriminate|reflexivity]).
  split; [exact Hidx|].
  destruct (getitem_in_range_result Scenario.decode_all Scenario.plain_target (-2) Hidx)
    as (info & Hinfo & Hget).
  exists info. exact (conj Hinfo Hget).
Defined.

(** Whatever an accessor built by [__init__] returns comes from its
    index: the sample is [transform] (when given) applied to the
    decoded image of an indexed record and that record's label, and
    the label is one of [classes()]. *)
Theorem getitem_init_sample_indexed {Image : Type} (imread : string -> option Image)
    (root : string) (transform : option (sample Image -> sample Image))
    (target_transform : option (string -> string)) (raw : list node)
    (idx : Z) (s : sample Image) :
  getitem imread (init root transform target_transform raw) idx = Ok s ->
  exists info image,
    info ∈ fst (load_img_list root raw) /\
    imread (image_path info) = Some image /\
    code_point info ∈ classes (init root transform target_transform raw) /\
    s = (let sample := {| sample_image := image;
                          sample_code_point := code_point info |} in
         match transform with
         | Some f => f sample
         | None => sample
         end).
Proof.
  destruct (img_list_init root transform target_transform raw) as (Hlist & Hclasses & Htr).
  intros Hget.
  destruct (list_getitem_cases
              (img_list (init root transform target_transform raw)) idx)
    as [[_ Hraise] | [Hin (info & Hinfo & Hok)]].
  - unfold getitem in Hget. by rewrite Hraise in Hget.
  - unfold getitem in Hget. rewrite Hok in Hget. unfold build_sample in Hget.
    rewrite Htr in Hget.
    destruct (imread (image_path info)) as [image|] eqn:Himage; [|done].
    apply list_elem_of_lookup_2 in Hinfo. rewrite Hlist in Hinfo.
    exists info, image. split; [done|]. split; [done|]. split.
    + rewrite Hclasses.
      apply elem_of_records in Hinfo as (p & name & sub & f & Hu & Hf & ->).
      apply elem_of_labels. exists p, name, sub. done.
    + destruct transform; by injection Hget as <-.
Qed.

Lemma getitem_init_sample_indexed_witness :
  getitem Scenario.decode_all Scenario.marked_target 1 =
    Ok {| sample_image := tt; sample_code_point := "U+4E01" |} /\
  exists info image,
    info ∈ fst (load_img_list "/data" Scenario.two_labels) /\
    Scenario.decode_all (image_path info) = Some image /\
    code_point info ∈ classes Scenario.marked_target.
Proof.
  assert (Hget : getitem Scenario.decode_all Scenario.marked_target 1 =
                 Ok {| sample_image := tt; sample_code_point := "U+4E01" |})
    by (vm_compute; reflexivity).
  split; [exact Hget|].
  destruct (getitem_init_sample_indexed Scenario.decode_all "/data" None
              (Some (fun label => label +:+ "!")) Scenario.two_labels 1 _ Hget)
    as (info & image & Hin & Himage & Hclass & _).
  exists info, image. exact (conj Hin (conj Himage Hclass)).
Defined.

(** ** More on the index *)

Lemma contains_iff (sub s : string) :
  PyStr.contains sub s = true <-> exists a b, s = a +:+ sub +:+ b.
Proof.
  split.
  - induction s as [|c s IH]; cbn [PyStr.contains].
    + destruct (String.prefix sub "") eqn:Hp; [|done].
      intros _. apply prefix_inv in Hp as [t ->]. by exists "", t.
    + destruct (String.prefix sub (String c s)) eqn:Hp.
      * intros _. apply prefix_inv in Hp as [t ->]. by exists "", t.
      * intros (a & b & ->)%IH. by exists (String c a), b.
  - intros (a & b & ->). induction a as [|c a IH].
    + change ("" +:+ sub +:+ b) with (sub +:+ b).
      destruct (sub +:+ b) eqn:Hs; cbn [PyStr.contains]; rewrite <- Hs;
        by rewrite prefix_append.
    + rewrite append_cons. cbn [PyStr.contains]. rewrite IH.
      by destruct (String.prefix sub _).
Qed.

(** A directory counts as a label directory exactly when ["U+"]
    occurs somewhere in its name, at any position. *)
Theorem is_label_iff (name : string) :
  is_label name = true <-> exists a b, name = a +:+ "U+" +:+ b.
Proof. apply contains_iff. Qed.

(** [get_characters_dir] returns the label directories strictly
    beneath [data_dir], at any depth, each with its path, and one entry
    per label directory; [data_dir] itself is never among them. *)
Theorem get_characters_dir_exact (data_dir : string) (es : list node) :
  (forall p sub,
     (p, sub) ∈ get_characters_dir data_dir es <->
     exists name, dir_at data_dir es p name sub /\ is_label name = true) /\
  length (get_characters_dir data_dir es) = length (label_dirs_in es).
Proof.
  split; [|apply length_get_characters_dir].
  intros p sub. apply (elem_of_get_characters_dir data_dir es (p, sub)).
Qed.

Lemma list_sum_map_mul {A : Type} (k : nat) (f g : A -> nat) (l : list A) :
  list_sum (map (fun x => f x + k * g x) l) = list_sum (map f l) + k * list_sum (map g l).
Proof.
  induction l as [|x l IH]; [cbn; lia|]. cbn [map]. rewrite !list_sum_cons, IH. lia.
Qed.

(** The files a walk reaches beneath one entry. *)
Lemma length_images_entries (p : string) (es : list node) :
  Forall (fun c => forall top,
            length (flat_map item_images (walk_sub top c)) =
            list_sum (map count_files (dir_entries c))) es ->
  length (filenames_of es) +
  list_sum (map (fun c => length (flat_map item_images (walk_sub p c))) es)
  = list_sum (map count_files es).
Proof.
  induction 1 as [|c es Hc _ IHes]; [done|].
  cbn [map]. rewrite !list_sum_cons, Hc, <- IHes.
  destruct c as [f | d sub]; unfold filenames_of; cbn [List.filter is_dir negb map length
    dir_entries count_files]; try change (list_sum []) with 0; lia.
Qed.

Lemma length_images_walk_sub (n : node) :
  forall top,
    length (flat_map item_images (walk_sub top n)) =
    list_sum (map count_files (dir_entries n)).
Proof.
  induction n as [name | name es IH] using node_nested_ind; intros top; [done|].
  cbn [walk_sub flat_map dir_entries]. rewrite length_app, length_item_images. cbn [snd].
  rewrite flat_map_flat_map, length_flat_map. by apply length_images_entries.
Qed.

Lemma length_images_os_walk (top : string) (es : list node) :
  length (flat_map item_images (os_walk top es)) = list_sum (map count_files es).
Proof.
  unfold os_walk. cbn [flat_map]. rewrite length_app, length_item_images. cbn [snd].
  rewrite flat_map_flat_map, length_flat_map. apply length_images_entries.
  apply Forall_forall. intros c _. apply length_images_walk_sub.
Qed.

Lemma weigh_records_for (n : node) :
  forall (top : string) (k : nat),
    weigh (fun _ sub => list_sum (map count_files sub)) top n + k * count_files n
    = records_for k n.
Proof.
  induction n as [name | name es IH] using node_nested_ind; intros top k.
  - cbn [weigh count_files records_for]. lia.
  - cbn [weigh count_files records_for].
    set (k' := if is_label name then S k else k).
    rewrite <- (list_sum_map_ext
      (fun c => weigh (fun _ sub => list_sum (map count_files sub))
                      (OsPath.join top name) c + k' * count_files c)
      (records_for k')).
    + rewrite list_sum_map_mul. unfold k'. destruct (is_label name); cbn [Nat.mul]; lia.
    + eapply Forall_impl; [exact IH|]. intros c Hc. apply Hc.
Qed.

(** [load_img_list] returns one record per file and enclosing label
    directory: a file below [k] nested label directories is recorded
    [k] times, a file below none is not recorded. *)
Theorem length_records (root : string) (es : list node) :
  length (fst (load_img_list root es)) = list_sum (map (records_for 0) es).
Proof.
  rewrite load_img_list_records. unfold walked.
  rewrite flat_map_flat_map, length_flat_map.
  rewrite (list_sum_map_ext _
    (fun cd : char_dir => list_sum (map count_files (snd cd)))).
  - rewrite (total_get_characters_dir (fun _ sub => list_sum (map count_files sub))).
    apply list_sum_map_ext, Forall_forall. intros c _.
    rewrite <- (weigh_records_for c (OsPath.join root raw_folder) 0). lia.
  - apply Forall_forall. intros cd _. apply length_images_os_walk.
Qed.

(** Without any label directory beneath the raw folder the index is
    empty, records and labels alike, whatever files there are; and
    with one, the label list is not empty. *)
Theorem no_label_dir_empty_index (root : string) (es : list node) :
  (label_dirs_in es = [] -> load_img_list root es = ([], [])) /\
  (snd (load_img_list root es) = [] <-> label_dirs_in es = []).
Proof.
  assert (Hempty : label_dirs_in es = [] -> load_img_list root es = ([], [])).
  { intros Hnone.
    pose proof (length_get_characters_dir (OsPath.join root raw_folder) es) as Hlen.
    rewrite Hnone in Hlen. apply nil_length_inv in Hlen.
    unfold load_img_list. rewrite Hlen. cbn [load_loops fold_left].
    by rewrite list_to_set_nil, elements_empty. }
  split; [exact Hempty|]. split; [|by intros ->%Hempty].
  intros Hnil. destruct (label_dirs_in es) as [|l ls] eqn:Hdirs; [done|].
  assert (Hl : l ∈ label_dirs_in es) by (rewrite Hdirs; apply list_elem_of_here).
  apply (elem_of_label_dirs_in (OsPath.join root raw_folder)) in Hl as (p & sub & Hd & Hl).
  assert (Hin : OsPath.basename p ∈ snd (load_img_list root es)).
  { apply elem_of_labels. exists p, l, sub. split; [|done]. exists p, l, sub. auto. }
  rewrite Hnil in Hin. by apply elem_of_nil in Hin.
Qed.

Lemma no_label_dir_empty_index_witness :
  label_dirs_in Scenario.unlabelled = [] /\
  load_img_list "/data" Scenario.unlabelled = ([], []).
Proof.
  split; [reflexivity|].
  exact (proj1 (no_label_dir_empty_index "/data" Scenario.unlabelled) eq_refl).
Defined.

(** ** More on the integrity check *)

Lemma read_chunks_nil (fuel : nat) : read_chunks fuel [] = [].
Proof. by destruct fuel. Qed.

Lemma length_read_bytes (n : N) (rest : list byte) :
  N.of_nat (length (read_bytes n rest)) = N.min n (N.of_nat (length rest)).
Proof.
  revert n. induction rest as [|b rest IH]; intros n; cbn [read_bytes length]; [lia|].
  destruct (N.eqb_spec n 0) as [->|Hn]; cbn [length]; [lia|].
  rewrite Nat2N.inj_succ, IH. lia.
Qed.

Lemma skip_bytes_nonempty (n : N) (rest : list byte) :
  skip_bytes n rest <> [] -> N.of_nat (length (read_bytes n rest)) = n.
Proof.
  revert n. induction rest as [|b rest IH]; intros n; cbn [read_bytes skip_bytes]; [done|].
  destruct (N.eqb_spec n 0) as [->|Hn]; cbn [length]; [done|].
  intros Hrest. rewrite Nat2N.inj_succ, (IH _ Hrest). lia.
Qed.

Lemma read_chunks_bounded (fuel : nat) (content : list byte) :
  Forall (fun chunk => chunk <> [] /\ (N.of_nat (length chunk) <= chunk_size)%N)
         (read_chunks fuel content).
Proof.
  revert content. induction fuel as [|fuel IH]; intros content; [constructor|].
  cbn [read_chunks].
  destruct (read_bytes chunk_size content) as [|b chunk] eqn:Hread; constructor.
  - split; [done|]. rewrite <- Hread, length_read_bytes. lia.
  - apply IH.
Qed.

Lemma read_chunks_full (fuel : nat) (content : list byte) (i : nat) (chunk : list byte) :
  read_chunks fuel content !! i = Some chunk ->
  S i < length (read_chunks fuel content) ->
  N.of_nat (length chunk) = chunk_size.
Proof.
  revert content i. induction fuel as [|fuel IH]; intros content i; [done|].
  cbn [read_chunks].
  destruct (read_bytes chunk_size content) as [|b first] eqn:Hread; [done|].
  destruct i as [|i]; cbn [lookup list_lookup length].
  - intros [= <-] Hmore. rewrite <- Hread. apply skip_bytes_nonempty.
    intros Hnil. rewrite Hnil, read_chunks_nil in Hmore. cbn [length] in Hmore. lia.
  - intros Hchunk Hmore. apply (IH (skip_bytes chunk_size content) i); [done|lia].
Qed.

(** The chunks [_check_integrity] feeds to the digest make up the
    whole file; none is empty, none exceeds [1024 * 1024] bytes, and
    every chunk but the last has exactly that size. *)
Theorem file_chunks_bounded (content : list byte) :
  concat (file_chunks content) = content /\
  Forall (fun chunk => chunk <> [] /\ (N.of_nat (length chunk) <= 1048576)%N)
         (file_chunks content) /\
  (forall i chunk,
     file_chunks content !! i = Some chunk ->
     S i < length (file_chunks content) ->
     N.of_nat (length chunk) = 1048576%N).
Proof.
  split; [apply concat_file_chunks|]. split.
  - apply read_chunks_bounded.
  - intros i chunk. apply read_chunks_full.
Qed.

(** ** More on [download] *)

Lemma length_append (s t : string) :
  String.length (s +:+ t) = String.length s + String.length t.
Proof. induction s as [|c s IH]; [done|]. rewrite append_cons. cbn. by rewrite IH. Qed.

Lemma append_inj_r (s s' t : string) : s +:+ t = s' +:+ t -> s = s'.
Proof.
  intros Heq. assert (Hlen : String.length s = String.length s').
  { apply (f_equal String.length) in Heq. rewrite !length_append in Heq. lia. }
  revert s' Heq Hlen. induction s as [|c s IH]; intros [|c' s'] Heq Hlen; try done.
  rewrite !append_cons in Heq. injection Heq as -> Heq.
  f_equal. apply IH; [done|]. cbn in Hlen. lia.
Qed.

(** Two books of different names have archives at different paths. *)
Lemma archive_path_inj (root id id' : string) :
  no_sep id = true -> no_sep id' = true ->
  archive_path root id = archive_path root id' -> id = id'.
Proof.
  intros Hid Hid' Heq. unfold archive_path, OsPath.join3 in Heq.
  apply (f_equal OsPath.basename) in Heq.
  rewrite !basename_join in Heq by (by apply no_sep_append).
  by apply append_inj_r in Heq.
Qed.

Lemma check_integrity_lookup `{Hashlib} (files1 files2 : file_store) (fpath md5 : string) :
  files1 !! fpath = files2 !! fpath ->
  check_integrity files1 fpath md5 = check_integrity files2 fpath md5.
Proof. intros Heq. unfold check_integrity. by rewrite Heq. Qed.

Section DownloadCases.

Context `{Hashlib}.
Variable out : outside.

(** The loop body has five outcomes. *)
Lemma download_book_cases (root book_id : string) (w : world) :
  no_sep book_id = true ->
  (remote out (download_url book_id) = None /\
   download_book out root book_id w =
     (Raise (URLError (download_url book_id)),
      {| files := files w; dirs := dirs w;
         trace := trace w ++ [Urlopen (download_url book_id)] |})) \/
  (zips_md5 !! archive_name book_id = None /\
   download_book out root book_id w =
     (Raise (KeyError (archive_name book_id)),
      {| files := files w; dirs := dirs w;
         trace := trace w ++ [Urlopen (download_url book_id)] |})) \/
  (archive_verified (files w) root book_id /\
   download_book out root book_id w =
     (Ok tt,
      {| files := files w; dirs := dirs w;
         trace := trace w ++ skipped_events book_id |})) \/
  (exists body,
     remote out (download_url book_id) = Some body /\
     ~ archive_verified (files w) root book_id /\
     zip_ok out body = true /\
     download_book out root book_id w =
       (Ok tt,
        {| files := delete (archive_path root book_id)
                      (write_members (extraction_dir root book_id) (zip_members out body)
                         (<[archive_path root book_id := body]> (files w)));
           dirs := dirs w;
           trace := trace w ++ fetched_events root book_id body |})) \/
  (exists body,
     remote out (download_url book_id) = Some body /\
     ~ archive_verified (files w) root book_id /\
     zip_ok out body = false /\
     download_book out root book_id w =
       (Raise (BadZipFile (archive_path root book_id)),
        {| files := write_members (extraction_dir root book_id) (zip_members out body)
                      (<[archive_path root book_id := body]> (files w));
           dirs := dirs w;
           trace := trace w ++
             [ Urlopen (download_url book_id);
               Print ("Downloading " +:+ download_url book_id);
               Read (download_url book_id);
               WriteFile (archive_path root book_id) body;
               Print ("Extracting data: " +:+ archive_name book_id) ] |})).
Proof.
  intros Hid.
  destruct (remote out (download_url book_id)) as [body|] eqn:Hbody;
    [|left; split; [done|by apply download_book_unreachable]].
  right. destruct (zips_md5 !! archive_name book_id) as [md5|] eqn:Hmd5.
  - right.
    destruct (check_integrity (files w) (archive_path root book_id) md5) eqn:Hcheck.
    + left. split; [by exists md5|].
      rewrite (download_book_verified out root book_id md5 body w Hid Hmd5 Hbody Hcheck).
      by rewrite <- app_assoc.
    + right.
      assert (Hnot : ~ archive_verified (files w) root book_id).
      { intros (md5' & Hmd5' & Hcheck'). congruence. }
      rewrite (download_book_unverified out root book_id md5 body w Hid Hmd5 Hbody Hcheck).
      unfold bind, extractall, unlink. cbn [files dirs trace].
      rewrite lookup_insert_eq. fold (extraction_dir root book_id).
      destruct (zip_ok out body) eqn:Hzip; [left|right]; exists body;
        (split; [done|]); (split; [done|]); (split; [done|]); [|done].
      cbn [files dirs trace]. unfold fetched_events.
      fold (extraction_dir root book_id). by rewrite <- !app_assoc.
  - left. split; [done|].
    unfold download_book, urlopen, zips_md5_getitem, bind, emit, ret, raise.
    by rewrite Hbody, (rpartition_download_url _ Hid), Hmd5.
Qed.

(** Every book of the catalog has its checksum in [zips_md5]. *)
Lemma book_ids_md5 (book_id : string) :
  book_id ∈ book_ids -> is_Some (zips_md5 !! archive_name book_id).
Proof.
  assert (Hall : forallb (fun id => match zips_md5 !! archive_name id with
                                    | Some _ => true
                                    | None => false
                                    end) book_ids = true) by (vm_compute; reflexivity).
  rewrite forallb_forall in Hall. intros Hin%list_elem_of_In%Hall.
  by destruct (zips_md5 !! archive_name book_id).
Qed.

(** The loop body leaves alone every file but the book's archive and
    what lies beneath the directory the archive is extracted into. *)
Lemma download_book_frame (root book_id : string) (w : world) (p : string) :
  no_sep book_id = true ->
  p <> archive_path root book_id ->
  beneath (extraction_dir root book_id) p = false ->
  files (snd (download_book out root book_id w)) !! p = files w !! p.
Proof.
  intros Hid Hp Hout.
  destruct (download_book_cases root book_id w Hid)
    as [[_ ->] | [[_ ->] | [[_ ->] | [(body & _ & _ & _ & ->) | (body & _ & _ & _ & ->)]]]];
    cbn [snd files]; try done.
  - by rewrite lookup_delete_ne, write_members_lookup, lookup_insert_ne.
  - by rewrite write_members_lookup, lookup_insert_ne.
Qed.

Lemma for_each_frame (root : string) (ids : list string) (w : world) (p : string) :
  (forall id, id ∈ ids ->
     no_sep id = true /\ p <> archive_path root id /\
     beneath (extraction_dir root id) p = false) ->
  files (snd (for_each ids (download_book out root) w)) !! p = files w !! p.
Proof.
  revert w. induction ids as [|id ids IH]; intros w Hids; [done|].
  destruct (Hids id) as (Hid & Hp & Hout); [apply list_elem_of_here|].
  cbn [for_each]. unfold bind.
  pose proof (download_book_frame root id w p Hid Hp Hout) as Hframe.
  destruct (download_book out root id w) as [[[]|e] w1]; cbn [snd] in *; [|done].
  rewrite IH; [done|]. intros id' Hin. apply Hids. by apply list_elem_of_further.
Qed.

(** The archive of another book is left alone. *)
Lemma download_book_archive (root book_id : string) (w : world) (id' : string) :
  no_sep book_id = true -> no_sep id' = true -> id' <> book_id ->
  files (snd (download_book out root book_id w)) !! archive_path root id'
  = files w !! archive_path root id'.
Proof.
  intros Hid Hid' Hne. apply download_book_frame; [done| |by apply archive_not_beneath].
  intros Heq. by apply archive_path_inj in Heq.
Qed.

Lemma for_each_archive (root : string) (ids : list string) (w : world) (id' : string) :
  (forall id, id ∈ ids -> no_sep id = true /\ id' <> id) ->
  no_sep id' = true ->
  files (snd (for_each ids (download_book out root) w)) !! archive_path root id'
  = files w !! archive_path root id'.
Proof.
  intros Hids Hid'. apply for_each_frame. intros id Hin.
  destruct (Hids id Hin) as [Hid Hne]. split; [done|].
  split; [|by apply archive_not_beneath].
  intros Heq. by apply archive_path_inj in Heq.
Qed.

(** What the loop body raises. *)
Lemma download_book_raises (root book_id : string) (w w' : world) (e : exn) :
  no_sep book_id = true ->
  is_Some (zips_md5 !! archive_name book_id) ->
  download_book out root book_id w = (Raise e, w') ->
  (e = URLError (download_url book_id) /\ remote out (download_url book_id) = None) \/
  (e = BadZipFile (archive_path root book_id) /\
   exists body, remote out (download_url book_id) = Some body /\
                zip_ok out body = false /\
                files w' !! archive_path root book_id = Some body).
Proof.
  intros Hid [md5 Hmd5] Hrun.
  destruct (download_book_cases root book_id w Hid)
    as [[Hdown Heq] | [[Hnone _] | [[_ Heq] | [(body & _ & _ & _ & Heq)
        | (body & Hbody & _ & Hzip & Heq)]]]];
    try (rewrite Heq in Hrun; injection Hrun as <- <-); try congruence.
  - by left.
  - right. split; [done|]. exists body. cbn [files].
    by rewrite write_members_lookup, lookup_insert_eq by (by apply archive_not_beneath).
Qed.

End DownloadCases.

Section DownloadLoops.

Context `{Hashlib}.
Variable out : outside.

Lemma for_each_raises (root : string) (ids : list string) (w w' : world) (e : exn) :
  (forall id, id ∈ ids -> no_sep id = true /\ is_Some (zips_md5 !! archive_name id)) ->
  for_each ids (download_book out root) w = (Raise e, w') ->
  exists id,
    id ∈ ids /\
    ((e = URLError (download_url id) /\ remote out (download_url id) = None) \/
     (e = BadZipFile (archive_path root id) /\
      exists body, remote out (download_url id) = Some body /\
                   zip_ok out body = false /\
                   files w' !! archive_path root id = Some body)).
Proof.
  revert w. induction ids as [|id ids IH]; intros w Hids; [by intros [=]|].
  destruct (Hids id) as [Hid Hmd5]; [apply list_elem_of_here|].
  cbn [for_each]. unfold bind.
  destruct (download_book out root id w) as [[[]|e'] w1] eqn:Hbook.
  - intros (id' & Hin & Hcase)%IH.
    + exists id'. split; [by apply list_elem_of_further|done].
    + intros id' Hin. apply Hids. by apply list_elem_of_further.
  - intros [= -> ->]. exists id. split; [apply list_elem_of_here|].
    by apply (download_book_raises out root id w).
Qed.

Lemma download_book_urlopens (root book_id : string) (w : world) :
  no_sep book_id = true ->
  exists evs,
    trace (snd (download_book out root book_id w)) = trace w ++ evs /\
    List.filter is_urlopen evs = [Urlopen (download_url book_id)].
Proof.
  intros Hid.
  destruct (download_book_cases out root book_id w Hid)
    as [[_ ->] | [[_ ->] | [[_ ->] | [(body & _ & _ & _ & ->) | (body & _ & _ & _ & ->)]]]];
    cbn [snd trace]; eexists; (split; [reflexivity|reflexivity]).
Qed.

(** The requests of a loop: one per book, in order, up to and
    including the book that raises. *)
Lemma for_each_urlopens (root : string) (ids : list string) (w : world) :
  (forall id, id ∈ ids -> no_sep id = true) ->
  exists evs n,
    trace (snd (for_each ids (download_book out root) w)) = trace w ++ evs /\
    List.filter is_urlopen evs = map (fun id => Urlopen (download_url id)) (take n ids) /\
    n <= length ids /\
    (fst (for_each ids (download_book out root) w) = Ok tt -> n = length ids) /\
    (forall e, fst (for_each ids (download_book out root) w) = Raise e -> 0 < n).
Proof.
  revert w. induction ids as [|id ids IH]; intros w Hids.
  - exists [], 0. cbn [for_each]. unfold ret. cbn [fst snd].
    rewrite app_nil_r. repeat split; done.
  - destruct (download_book_urlopens root id w) as (evs & Htrace & Hreq);
      [apply Hids, list_elem_of_here|].
    cbn [for_each]. unfold bind.
    destruct (download_book out root id w) as [[[]|e] w1]; cbn [fst snd] in *.
    + destruct (IH w1) as (evs' & n & Htrace' & Hreq' & Hn & Hok & Hraise).
      { intros id' Hin. apply Hids. by apply list_elem_of_further. }
      exists (evs ++ evs'), (S n). rewrite Htrace', Htrace, <- app_assoc.
      split; [done|]. rewrite List.filter_app, Hreq, Hreq'. split; [done|].
      cbn [length]. split; [lia|]. split.
      * intros Hrun. by rewrite (Hok Hrun).
      * intros e' _. lia.
    + exists evs, 1. split; [done|]. split; [by rewrite Hreq|].
      cbn [length]. split; [lia|]. split; [by intros [=]|]. intros e' _. lia.
Qed.

(** After a loop that ends well, the archive of each book is gone, or
    it verified at the start and is as it was. *)
Lemma for_each_ok_archives (root : string) (ids : list string) (w w' : world) :
  NoDup ids ->
  (forall id, id ∈ ids -> no_sep id = true) ->
  for_each ids (download_book out root) w = (Ok tt, w') ->
  forall id, id ∈ ids ->
    files w' !! archive_path root id = None \/
    (files w' !! archive_path root id = files w !! archive_path root id /\
     archive_verified (files w) root id).
Proof.
  revert w. induction ids as [|id0 ids IH]; intros w Hnodup Hids Hrun id Hin.
  { by apply elem_of_nil in Hin. }
  apply NoDup_cons in Hnodup as [Hfresh Hnodup].
  assert (Hid0 : no_sep id0 = true) by apply Hids, list_elem_of_here.
  assert (Hrest : forall id', id' ∈ ids -> no_sep id' = true).
  { intros id' Hin'. apply Hids. by apply list_elem_of_further. }
  cbn [for_each] in Hrun. unfold bind in Hrun.
  pose proof (fun id' => download_book_archive out root id0 w id' Hid0) as Hframe.
  pose proof (download_book_cases out root id0 w Hid0) as Hcases.
  destruct (download_book out root id0 w) as [[[]|e] w1] eqn:Hbook; [|done].
  cbn [snd] in Hframe.
  apply elem_of_cons in Hin as [-> | Hin].
  - assert (Hlater : files w' !! archive_path root id0 = files w1 !! archive_path root id0).
    { replace w' with (snd (for_each ids (download_book out root) w1))
        by (by rewrite Hrun).
      apply for_each_archive; [|done]. intros id' Hin'. split; [by apply Hrest|].
      by intros ->. }
    rewrite Hlater.
    destruct Hcases as [[_ [=]] | [[_ [=]] | [[Hver Heq] | [(body & _ & _ & _ & Heq)
      | (body & _ & _ & _ & [=])]]]]; injection Heq as ->; cbn [files].
    + right. done.
    + left. apply lookup_delete_eq.
  - assert (Hne : id <> id0) by (by intros ->).
    assert (Hid : no_sep id = true) by (by apply Hrest).
    destruct (IH w1 Hnodup Hrest Hrun id Hin) as [Hgone | [Hsame (md5 & Hmd5 & Hcheck)]];
      [by left|right].
    rewrite Hsame, (Hframe _ Hid Hne). split; [done|]. exists md5. split; [done|].
    rewrite <- Hcheck. apply check_integrity_lookup. symmetry. by apply Hframe.
Qed.

End DownloadLoops.

Lemma book_ids_nodup : NoDup book_ids.
Proof. apply (bool_decide_unpack _). vm_compute. exact I. Qed.

(** The lookup [self.zips_md5[filename]] never fails: for every book
    of the catalog the name cut from its address is a key of
    [zips_md5], so no run of [download] raises [KeyError]. *)
Theorem download_never_key_error `{Hashlib} (out : outside) (root : string) (w : world) :
  (forall book_id, book_id ∈ book_ids ->
     is_Some (zips_md5 !! PyStr.rpartition_sep_2 (download_url book_id))) /\
  (forall e, fst (download out root w) = Raise e -> is_key_error e = false).
Proof.
  split.
  - intros id Hin. rewrite rpartition_download_url by (by apply book_ids_no_sep).
    by apply book_ids_md5.
  - intros e. rewrite download_unfold.
    destruct (negb (dir_exists w (OsPath.join root raw_folder))
              && mkdir_denied out (OsPath.join root raw_folder)).
    + by intros [= <-].
    + destruct (for_each book_ids (download_book out root) _) as [r w'] eqn:Hrun.
      cbn [fst]. intros ->. apply for_each_raises in Hrun as (id & _ & Hcase).
      * by destruct Hcase as [[-> _] | [-> _]].
      * intros id Hin. split; [by apply book_ids_no_sep|by apply book_ids_md5].
Qed.

(** The requests of a run of [download] are those of the first [n]
    books of the catalog, in the order of the catalog and one per
    book, for some [n]; a run that ends well has sent one for each of
    the fifteen books. *)
Theorem download_requests_in_catalog_order `{Hashlib} (out : outside)
    (root : string) (w : world) :
  exists evs n,
    trace (snd (download out root w)) = trace w ++ evs /\
    List.filter is_urlopen evs =
      map (fun book_id => Urlopen (download_url book_id)) (take n book_ids) /\
    n <= 15 /\
    (fst (download out root w) = Ok tt -> n = 15).
Proof.
  rewrite download_unfold.
  destruct (negb (dir_exists w (OsPath.join root raw_folder))
            && mkdir_denied out (OsPath.join root raw_folder)).
  - exists [], 0. cbn [fst snd]. rewrite app_nil_r. repeat split; [lia|by intros [=]].
  - set (w0 := {| files := files w;
                  dirs := {[OsPath.join root raw_folder]} ∪ dirs w;
                  trace := trace w |}).
    destruct (for_each_urlopens out root book_ids w0)
      as (evs & n & Htrace & Hreq & Hn & Hok & _).
    { intros id Hin. by apply book_ids_no_sep. }
    exists evs, n. done.
Qed.

(** [download] writes and removes nothing but the archives of the
    catalog and what lies beneath the directories they are extracted
    into: a file at any other path is after the run exactly as before,
    whether the run ends well or raises. *)
Theorem download_leaves_other_files `{Hashlib} (out : outside)
    (root : string) (w : world) (p : string) :
  (forall book_id, book_id ∈ book_ids ->
     p <> archive_path root book_id /\
     beneath (extraction_dir root book_id) p = false) ->
  files (snd (download out root w)) !! p = files w !! p.
Proof.
  intros Hp. rewrite download_unfold.
  destruct (negb (dir_exists w (OsPath.join root raw_folder))
            && mkdir_denied out (OsPath.join root raw_folder)); [done|].
  rewrite for_each_frame; [done|].
  intros id Hin. split; [by apply book_ids_no_sep|by apply Hp].
Qed.

Lemma download_leaves_other_files_witness :
  (forall book_id, book_id ∈ book_ids ->
     "data/raw/notes.txt" <> archive_path "data" book_id /\
     beneath (extraction_dir "data" book_id) "data/raw/notes.txt" = false) /\
  fst (download (H := Scenario.plain_digest) Scenario.serve_fresh "data"
         Scenario.with_notes) = Ok tt /\
  files (snd (download (H := Scenario.plain_digest) Scenario.serve_fresh "data"
                Scenario.with_notes)) !! "data/raw/notes.txt"
    = Some (list_byte_of_string "notes").
Proof.
  assert (Hp : forall book_id, book_id ∈ book_ids ->
                 "data/raw/notes.txt" <> archive_path "data" book_id /\
                 beneath (extraction_dir "data" book_id) "data/raw/notes.txt" = false).
  { assert (Hall : forallb (fun id =>
        negb (String.eqb "data/raw/notes.txt" (archive_path "data" id))
        && negb (beneath (extraction_dir "data" id) "data/raw/notes.txt"))
        book_ids = true) by (vm_compute; reflexivity).
    rewrite forallb_forall in Hall. intros id Hin%list_elem_of_In%Hall.
    apply andb_prop in Hin as [Hne Hout%negb_true_iff].
    split; [|exact Hout]. intros Heq. rewrite Heq, String.eqb_refl in Hne. done. }
  split; [exact Hp|]. split; [vm_compute; reflexivity|].
  by rewrite (download_leaves_other_files (H := Scenario.plain_digest)
                Scenario.serve_fresh "data" Scenario.with_notes _ Hp).
Defined.

(** After a run of [download] that ends well, the archive of each
    book is either absent, or it verified when the run began and is
    untouched: an archive that was fetched is always removed. *)
Theorem download_ok_archives `{Hashlib} (out : outside)
    (root : string) (w : world) (book_id : string) :
  fst (download out root w) = Ok tt ->
  book_id ∈ book_ids ->
  files (snd (download out root w)) !! archive_path root book_id = None \/
  (files (snd (download out root w)) !! archive_path root book_id
     = files w !! archive_path root book_id /\
   archive_verified (files w) root book_id).
Proof.
  rewrite download_unfold.
  destruct (negb (dir_exists w (OsPath.join root raw_folder))
            && mkdir_denied out (OsPath.join root raw_folder)); [by intros [=]|].
  set (w0 := {| files := files w;
                dirs := {[OsPath.join root raw_folder]} ∪ dirs w;
                trace := trace w |}).
  destruct (for_each book_ids (download_book out root) w0) as [r w'] eqn:Hrun.
  cbn [fst snd]. intros -> Hin.
  apply (for_each_ok_archives out root book_ids w0 w' book_ids_nodup
           book_ids_no_sep Hrun book_id Hin).
Qed.

Lemma download_ok_archives_witness :
  fst (download (H := Scenario.plain_digest) Scenario.serve_fresh "data"
         Scenario.stale_archive) = Ok tt /\
  "200003076" ∈ book_ids /\
  (files (snd (download (H := Scenario.plain_digest) Scenario.serve_fresh "data"
                 Scenario.stale_archive)) !! archive_path "data" "200003076" = None \/
   (files (snd (download (H := Scenario.plain_digest) Scenario.serve_fresh "data"
                  Scenario.stale_archive)) !! archive_path "data" "200003076"
      = files Scenario.stale_archive !! archive_path "data" "200003076" /\
    archive_verified (H := Scenario.plain_digest)
      (files Scenario.stale_archive) "data" "200003076")).
Proof.
  assert (Hrun : fst (download (H := Scenario.plain_digest) Scenario.serve_fresh "data"
                        Scenario.stale_archive) = Ok tt) by (vm_compute; reflexivity).
  assert (Hin : "200003076" ∈ book_ids) by apply list_elem_of_here.
  split; [exact Hrun|]. split; [exact Hin|].
  exact (download_ok_archives (H := Scenario.plain_digest) Scenario.serve_fresh "data"
           Scenario.stale_archive "200003076" Hrun Hin).
Defined.

Section FreshRuns.

Context `{Hashlib}.
Variable out : outside.

Lemma fresh_not_verified (files : file_store) (root book_id : string) :
  files !! archive_path root book_id = None -> ~ archive_verified files root book_id.
Proof.
  intros Hnone (md5 & _ & Hcheck).
  by rewrite (check_integrity_missing _ _ _ Hnone) in Hcheck.
Qed.

(** An archive that is not on disk before the loop body is not on
    disk after it, when the loop body ends well. *)
Lemma download_book_absent (root book_id : string) (w w' : world) (id' : string) :
  no_sep book_id = true -> no_sep id' = true ->
  files w !! archive_path root id' = None ->
  download_book out root book_id w = (Ok tt, w') ->
  files w' !! archive_path root id' = None.
Proof.
  intros Hid Hid' Hnone Hrun.
  destruct (decide (id' = book_id)) as [->|Hne].
  - destruct (download_book_cases out root book_id w Hid)
      as [[_ Heq] | [[_ Heq] | [[Hver _] | [(body & _ & _ & _ & Heq)
          | (body & _ & _ & _ & Heq)]]]];
      try (rewrite Heq in Hrun; injection Hrun as <-); try congruence.
    + by apply fresh_not_verified in Hver.
    + cbn [files]. apply lookup_delete_eq.
  - rewrite <- Hnone.
    replace w' with (snd (download_book out root book_id w)) by (by rewrite Hrun).
    by apply download_book_archive.
Qed.

(** With no archive on disk, a loop body that ends well has fetched
    a body that extracts. *)
Lemma download_book_fresh_ok (root book_id : string) (w w' : world) :
  no_sep book_id = true ->
  files w !! archive_path root book_id = None ->
  download_book out root book_id w = (Ok tt, w') ->
  exists body, remote out (download_url book_id) = Some body /\ zip_ok out body = true.
Proof.
  intros Hid Hnone Hrun.
  destruct (download_book_cases out root book_id w Hid)
    as [[_ Heq] | [[_ Heq] | [[Hver _] | [(body & Hbody & _ & Hzip & Heq)
        | (body & _ & _ & _ & Heq)]]]];
    try (rewrite Heq in Hrun; injection Hrun as <-); try congruence.
  - by apply fresh_not_verified in Hver.
  - by exists body.
Qed.

Lemma download_book_fresh_run (root book_id : string) (w : world) (body : list byte) :
  no_sep book_id = true ->
  is_Some (zips_md5 !! archive_name book_id) ->
  files w !! archive_path root book_id = None ->
  remote out (download_url book_id) = Some body ->
  zip_ok out body = true ->
  exists w',
    download_book out root book_id w = (Ok tt, w') /\
    trace w' = trace w ++ fetched_events root book_id body.
Proof.
  intros Hid [md5 Hmd5] Hnone Hbody Hzip.
  destruct (download_book_cases out root book_id w Hid)
    as [[Hdown _] | [[Hkey _] | [[Hver _] | [(body' & Hbody' & _ & _ & Heq)
        | (body' & Hbody' & _ & Hzip' & _)]]]]; try congruence.
  - by apply fresh_not_verified in Hver.
  - rewrite Heq. assert (body' = body) as -> by congruence. by eexists.
Qed.

Lemma for_each_fresh_ok (root : string) (ids : list string) (w w' : world) :
  (forall id, id ∈ ids ->
     no_sep id = true /\ files w !! archive_path root id = None) ->
  for_each ids (download_book out root) w = (Ok tt, w') ->
  (forall id', no_sep id' = true ->
     files w !! archive_path root id' = None ->
     files w' !! archive_path root id' = None) /\
  forall id, id ∈ ids ->
    exists body, remote out (download_url id) = Some body /\ zip_ok out body = true.
Proof.
  revert w. induction ids as [|id0 ids IH]; intros w Hids.
  - cbn [for_each]. unfold ret. intros [= <-]. split; [done|].
    intros id Hin. by apply elem_of_nil in Hin.
  - destruct (Hids id0) as [Hid0 Hnone]; [apply list_elem_of_here|].
    cbn [for_each]. unfold bind.
    destruct (download_book out root id0 w) as [[[]|e] w1] eqn:Hbook; [|done].
    pose proof (download_book_fresh_ok root id0 w w1 Hid0 Hnone Hbook) as Hfacts.
    pose proof (fun id' Hid' Hgone =>
                  download_book_absent root id0 w w1 id' Hid0 Hid' Hgone Hbook) as Hstep.
    intros Hrun. destruct (IH w1) as [Hkeep Hfacts']; [|exact Hrun|].
    { intros id Hin. destruct (Hids id) as [Hid Hgone]; [by apply list_elem_of_further|].
      split; [done|]. by apply Hstep. }
    split; [intros id' Hid' Hgone; by apply Hkeep, Hstep|].
    intros id [-> | Hin]%elem_of_cons; [done|by apply Hfacts'].
Qed.

Lemma for_each_fresh_run (root : string) (ids : list string) (w : world) :
  (forall id, id ∈ ids ->
     no_sep id = true /\ is_Some (zips_md5 !! archive_name id) /\
     files w !! archive_path root id = None /\
     exists body, remote out (download_url id) = Some body /\ zip_ok out body = true) ->
  exists w' evs,
    for_each ids (download_book out root) w = (Ok tt, w') /\
    trace w' = trace w ++ evs /\
    List.filter is_read evs = map (fun id => Read (download_url id)) ids.
Proof.
  revert w. induction ids as [|id0 ids IH]; intros w Hids.
  - exists w, []. by rewrite app_nil_r.
  - destruct (Hids id0) as (Hid0 & Hmd5 & Hnone & body & Hbody & Hzip);
      [apply list_elem_of_here|].
    cbn [for_each]. unfold bind.
    destruct (download_book_fresh_run root id0 w body Hid0 Hmd5 Hnone Hbody Hzip)
      as (w1 & Hbook & Htrace1).
    rewrite Hbook.
    destruct (IH w1) as (w' & evs & Hrun & Htrace & Hreads).
    { intros id Hin.
      destruct (Hids id) as (Hid & Hsum & Hgone & Hserved); [by apply list_elem_of_further|].
      split; [done|]. split; [done|]. split; [|done].
      by apply (download_book_absent root id0 w w1 id). }
    exists w', (fetched_events root id0 body ++ evs).
    rewrite Hrun, Htrace, Htrace1, <- app_assoc.
    split; [done|]. split; [done|].
    by rewrite List.filter_app, Hreads.
Qed.

End FreshRuns.

(** Directories are made and never removed. *)
Lemma download_book_dirs `{Hashlib} (out : outside) (root book_id : string)
    (w : world) (d : string) :
  no_sep book_id = true ->
  d ∈ dirs w -> d ∈ dirs (snd (download_book out root book_id w)).
Proof.
  intros Hid Hd.
  destruct (download_book_cases out root book_id w Hid)
    as [[_ ->] | [[_ ->] | [[_ ->] | [(body & _ & _ & _ & ->) | (body & _ & _ & _ & ->)]]]];
    cbn [snd dirs]; set_solver.
Qed.

Lemma for_each_dirs `{Hashlib} (out : outside) (root : string) (ids : list string)
    (w : world) (d : string) :
  (forall id, id ∈ ids -> no_sep id = true) ->
  d ∈ dirs w -> d ∈ dirs (snd (for_each ids (download_book out root) w)).
Proof.
  revert w. induction ids as [|id ids IH]; intros w Hids Hd; [done|].
  cbn [for_each]. unfold bind.
  pose proof (download_book_dirs out root id w d (Hids id (list_elem_of_here _ _)) Hd)
    as Hstep.
  destruct (download_book out root id w) as [[[]|e] w1]; cbn [snd] in *; [|done].
  apply IH; [|done]. intros id' Hin. apply Hids. by apply list_elem_of_further.
Qed.

(** [download] does not keep what it fetched: started with none of
    the archives on disk, a run that ends well leaves none of them on
    disk, so a second run ends well too after reading the body of every
    book of the catalog once more. *)
Theorem download_again_fetches_again `{Hashlib} (out : outside)
    (root : string) (w : world) :
  (forall book_id, book_id ∈ book_ids ->
     files w !! archive_path root book_id = None) ->
  fst (download out root w) = Ok tt ->
  (forall book_id, book_id ∈ book_ids ->
     files (snd (download out root w)) !! archive_path root book_id = None) /\
  fst (download out root (snd (download out root w))) = Ok tt /\
  exists evs,
    trace (snd (download out root (snd (download out root w))))
      = trace (snd (download out root w)) ++ evs /\
    List.filter is_read evs = map (fun book_id => Read (download_url book_id)) book_ids.
Proof.
  intros Hfresh.
  destruct (download out root w) as [r w1] eqn:Hrun. cbn [fst snd]. intros ->.
  rewrite download_unfold in Hrun.
  destruct (negb (dir_exists w (OsPath.join root raw_folder))
            && mkdir_denied out (OsPath.join root raw_folder)); [done|].
  assert (Hraw : OsPath.join root raw_folder ∈ dirs w1).
  { replace w1 with (snd (for_each book_ids (download_book out root)
        {| files := files w;
           dirs := {[OsPath.join root raw_folder]} ∪ dirs w;
           trace := trace w |})) by (by rewrite Hrun).
    apply for_each_dirs; [apply book_ids_no_sep|]. cbn [dirs]. set_solver. }
  apply for_each_fresh_ok in Hrun as [Hgone Hfacts];
    [|intros id Hin; split; [by apply book_ids_no_sep|by apply Hfresh]].
  cbn [files] in Hgone.
  assert (Hfresh1 : forall id, id ∈ book_ids -> files w1 !! archive_path root id = None).
  { intros id Hin. apply Hgone; [by apply book_ids_no_sep|by apply Hfresh]. }
  split; [exact Hfresh1|].
  rewrite download_unfold, (dir_exists_made _ _ Hraw). cbn [negb andb].
  destruct (for_each_fresh_run out root book_ids
              {| files := files w1;
                 dirs := {[OsPath.join root raw_folder]} ∪ dirs w1;
                 trace := trace w1 |})
    as (w2 & evs & Hrun2 & Htrace & Hreads).
  { intros id Hin. cbn [files].
    split; [by apply book_ids_no_sep|]. split; [by apply book_ids_md5|].
    split; [by apply Hfresh1|by apply Hfacts]. }
  rewrite Hrun2. cbn [fst snd]. split; [done|]. by exists evs.
Qed.

Lemma download_again_fetches_again_witness :
  (forall book_id, book_id ∈ book_ids ->
     files Scenario.nothing_yet !! archive_path "data" book_id = None) /\
  fst (download (H := Scenario.plain_digest) Scenario.serve_fresh "data"
         Scenario.nothing_yet) = Ok tt /\
  fst (download (H := Scenario.plain_digest) Scenario.serve_fresh "data"
         (snd (download (H := Scenario.plain_digest) Scenario.serve_fresh "data"
                 Scenario.nothing_yet))) = Ok tt.
Proof.
  assert (Hfresh : forall book_id, book_id ∈ book_ids ->
                     files Scenario.nothing_yet !! archive_path "data" book_id = None)
    by (intros book_id _; apply lookup_empty).
  assert (Hrun : fst (download (H := Scenario.plain_digest) Scenario.serve_fresh "data"
                        Scenario.nothing_yet) = Ok tt) by (vm_compute; reflexivity).
  split; [exact Hfresh|]. split; [exact Hrun|].
  exact (proj1 (proj2 (download_again_fetches_again (H := Scenario.plain_digest)
                         Scenario.serve_fresh "data" Scenario.nothing_yet Hfresh Hrun))).
Defined.

(** ** The directory an archive is extracted into *)

Lemma prefix_refl (s : string) : String.prefix s s = true.
Proof. induction s as [|c s IH]; [done|]. cbn. by destruct (ascii_dec c c). Qed.

Lemma drop_chars_all (s : string) : PyStr.drop_chars (String.length s) s = "".
Proof. induction s as [|c s IH]; [done|]. apply IH. Qed.

Lemma replace_fuel_empty (fuel : nat) (old new : string) :
  PyStr.replace_fuel fuel old new "" = "".
Proof. by destruct fuel. Qed.

Lemma replace_fuel_suffix (old a : string) (fuel : nat) :
  old <> "" ->
  String.length (a +:+ old) < fuel ->
  occurs_early old a = false ->
  PyStr.replace_fuel fuel old "" (a +:+ old) = a.
Proof.
  intros Hold. revert fuel. induction a as [|c a IH]; intros fuel Hfuel Hearly.
  - change ("" +:+ old) with old in *. destruct fuel as [|fuel]; [lia|].
    destruct old as [|d old]; [done|]. cbn [PyStr.replace_fuel].
    rewrite prefix_refl, drop_chars_all. apply replace_fuel_empty.
  - cbn [occurs_early] in Hearly. apply orb_false_elim in Hearly as [Hhere Hlater].
    rewrite append_cons in *. destruct fuel as [|fuel]; [cbn in Hfuel; lia|].
    cbn [PyStr.replace_fuel]. rewrite Hhere. f_equal.
    apply IH; [|done]. cbn [String.length] in Hfuel. lia.
Qed.

(** The archive of a book is extracted into the directory
    [root/raw/book_id], inside the raw folder that [load_img_list]
    walks, provided [".zip"] occurs nowhere in the archive's path but
    at its end: [str.replace] removes every occurrence, not the
    extension only. *)
Theorem extraction_target (root book_id : string) :
  occurs_early ".zip" (OsPath.join3 root raw_folder book_id) = false ->
  PyStr.replace ".zip" "" (archive_path root book_id)
  = OsPath.join3 root raw_folder book_id.
Proof.
  intros Hearly. unfold archive_path, archive_name, OsPath.join3 in *.
  rewrite join_append by done. unfold PyStr.replace.
  apply replace_fuel_suffix; [done|lia|done].
Qed.

Lemma extraction_target_witness :
  occurs_early ".zip" (OsPath.join3 "data" raw_folder "200003076") = false /\
  PyStr.replace ".zip" "" (archive_path "data" "200003076")
  = OsPath.join3 "data" raw_folder "200003076".
Proof.
  split; [reflexivity|].
  exact (extraction_target "data" "200003076" eq_refl).
Defined.

(** With [".zip"] in [root], the archive is extracted outside the
    raw folder of [root]. *)
Example extraction_target_elsewhere :
  archive_path "/srv/data.zip" "200003076" = "/srv/data.zip/raw/200003076.zip" /\
  PyStr.replace ".zip" "" (archive_path "/srv/data.zip" "200003076")
  = "/srv/data/raw/200003076".
Proof. split; vm_compute; reflexivity. Qed.

(** ** What [download] checks, and what it does not *)

Lemma download_all_verified_witness :
  (forall book_id, book_id ∈ book_ids ->
     exists md5 body,
       zips_md5 !! archive_name book_id = Some md5 /\
       remote Scenario.serve_empty (download_url book_id) = Some body /\
       check_integrity (H := Scenario.plain_digest) (files Scenario.all_verified)
         (archive_path "data" book_id) md5 = true) /\
  files (snd (download (H := Scenario.plain_digest) Scenario.serve_empty "data"
                Scenario.all_verified)) = files Scenario.all_verified.
Proof.
  assert (Hall : forall book_id, book_id ∈ book_ids ->
            exists md5 body,
              zips_md5 !! archive_name book_id = Some md5 /\
              remote Scenario.serve_empty (download_url book_id) = Some body /\
              check_integrity (H := Scenario.plain_digest) (files Scenario.all_verified)
                (archive_path "data" book_id) md5 = true).
  { assert (Hchecks : forallb (fun id =>
              check_integrity (H := Scenario.plain_digest) (files Scenario.all_verified)
                (archive_path "data" id) (default "" (zips_md5 !! archive_name id)))
              book_ids = true) by (vm_compute; reflexivity).
    rewrite forallb_forall in Hchecks. intros id Hin.
    destruct (book_ids_md5 id Hin) as [md5 Hmd5].
    exists md5, []. split; [exact Hmd5|]. split; [reflexivity|].
    apply list_elem_of_In, Hchecks in Hin. cbn beta in Hin.
    rewrite Hmd5 in Hin. exact Hin. }
  split; [exact Hall|].
  by rewrite (download_all_verified (H := Scenario.plain_digest) Scenario.serve_empty
                "data" Scenario.all_verified Hall).
Defined.



(** ** Whole runs of [download], book by book *)

Lemma bind_assoc {A B C : Type} (c : cmd A) (k1 : A -> cmd B) (k2 : B -> cmd C) (w : world) :
  bind (bind c k1) k2 w = bind c (fun a => bind (k1 a) k2) w.
Proof. unfold bind. by destruct (c w) as [[a|e] w']. Qed.

Lemma for_each_app {A : Type} (xs ys : list A) (body : A -> cmd unit) (w : world) :
  for_each (xs ++ ys) body w = bind (for_each xs body) (fun _ => for_each ys body) w.
Proof.
  revert w. induction xs as [|x xs IH]; intros w; [done|].
  cbn [app for_each]. unfold bind.
  destruct (body x w) as [[[]|e] w1]; [|done]. by rewrite IH.
Qed.

Lemma not_elem_of_take_lookup {A : Type} (l : list A) (k : nat) (x : A) :
  NoDup l -> l !! k = Some x -> x ∉ take k l.
Proof.
  intros Hnodup Hk [j Hj]%list_elem_of_lookup.
  apply lookup_take_Some in Hj as [Hj Hlt].
  pose proof (NoDup_lookup l j k x Hnodup Hj Hk). lia.
Qed.

Section BookByBook.

Context `{Hashlib}.
Variable out : outside.

(** When the loop reaches the book of position [k], the run goes on
    with the loop body for that book and then with the later books. *)
Lemma download_split (root : string) (k : nat) (book_id : string) (w w1 : world) :
  book_ids !! k = Some book_id ->
  download_upto out root k w = (Ok tt, w1) ->
  download out root w =
    bind (download_book out root book_id)
         (fun _ => for_each (drop (S k) book_ids) (download_book out root)) w1.
Proof.
  intros Hk. rewrite download_upto_unfold, download_unfold.
  destruct (negb (dir_exists w (OsPath.join root raw_folder))
            && mkdir_denied out (OsPath.join root raw_folder)); [by intros [=]|].
  intros Hupto. rewrite <- (take_drop_middle book_ids k book_id Hk) at 1.
  rewrite for_each_app. unfold bind at 1. by rewrite Hupto.
Qed.

(** The books before a book leave its archive alone. *)
Lemma download_upto_frame (root : string) (k : nat) (book_id : string) (w w1 : world) :
  book_ids !! k = Some book_id ->
  download_upto out root k w = (Ok tt, w1) ->
  files w1 !! archive_path root book_id = files w !! archive_path root book_id.
Proof.
  intros Hk. rewrite download_upto_unfold.
  destruct (negb (dir_exists w (OsPath.join root raw_folder))
            && mkdir_denied out (OsPath.join root raw_folder)); [by intros [=]|].
  intros Hupto.
  assert (Hin : book_id ∈ book_ids) by (by eapply list_elem_of_lookup_2).
  pose proof (for_each_archive out root (take k book_ids)
    {| files := files w;
       dirs := {[OsPath.join root raw_folder]} ∪ dirs w;
       trace := trace w |} book_id) as Hframe.
  rewrite Hupto in Hframe. cbn [snd files] in Hframe.
  apply Hframe; [|by apply book_ids_no_sep].
  intros id Hid. assert (Hid' : id ∈ book_ids).
  { apply list_elem_of_lookup in Hid as [j Hj].
    apply lookup_take_Some in Hj as [Hj _]. by eapply list_elem_of_lookup_2. }
  split; [by apply book_ids_no_sep|].
  intros ->. by apply (not_elem_of_take_lookup book_ids k id book_ids_nodup Hk).
Qed.

End BookByBook.

(** C7, as stated, fails: with the archive of the second book on disk
    under a content that does not verify, and a host on which only the
    address of the first book fails, [download] raises at the first
    book; the second archive is not fetched again and keeps its
    content. *)
Lemma stale_archive_kept_when_earlier_book_fails :
  files Scenario.stale_second !! archive_path "data" "200003967"
    = Some (list_byte_of_string "stale") /\
  zips_md5 !! archive_name "200003967" = Some "fa3100fd0da6a670c0e63aeeedef8e5c" /\
  check_integrity (H := Scenario.plain_digest) (files Scenario.stale_second)
    (archive_path "data" "200003967") "fa3100fd0da6a670c0e63aeeedef8e5c" = false /\
  remote Scenario.first_down (download_url "200003967")
    = Some (list_byte_of_string "fresh") /\
  fst (download (H := Scenario.plain_digest) Scenario.first_down "data"
         Scenario.stale_second) = Raise (URLError (download_url "200003076")) /\
  trace (snd (download (H := Scenario.plain_digest) Scenario.first_down "data"
                Scenario.stale_second)) = [Urlopen (download_url "200003076")] /\
  files (snd (download (H := Scenario.plain_digest) Scenario.first_down "data"
                Scenario.stale_second)) !! archive_path "data" "200003967"
    = Some (list_byte_of_string "stale").
Proof. repeat split; vm_compute; reflexivity. Qed.

(** C7, amended: when the local archive of a book exists and its
    checksum differs from the expected one, and the run of [download]
    reaches that book (the raw folder is made and the loop over the
    earlier books ends without error) and the request for the book's
    address is answered, [download] fetches the body from that address
    and writes it over the file: the run goes on, with the extraction,
    the removal and the later books, from a state where the file holds
    exactly the fetched bytes. *)
Theorem mismatched_archive_refetched `{Hashlib} (out : outside)
    (root : string) (k : nat) (book_id md5 : string) (old body : list byte)
    (w w1 : world) :
  book_ids !! k = Some book_id ->
  zips_md5 !! archive_name book_id = Some md5 ->
  files w !! archive_path root book_id = Some old ->
  md5_hex old <> md5 ->
  download_upto out root k w = (Ok tt, w1) ->
  remote out (download_url book_id) = Some body ->
  exists written,
    files written = <[archive_path root book_id := body]> (files w1) /\
    files written !! archive_path root book_id = Some body /\
    trace written = trace w1 ++
      [ Urlopen (download_url book_id);
        Print ("Downloading " +:+ download_url book_id);
        Read (download_url book_id);
        WriteFile (archive_path root book_id) body;
        Print ("Extracting data: " +:+ archive_name book_id) ] /\
    download out root w =
      (let* _ := extractall out (archive_path root book_id)
                   (PyStr.replace ".zip" "" (archive_path root book_id)) in
       let* _ := unlink (archive_path root book_id) in
       for_each (drop (S k) book_ids) (download_book out root))%cmd written.
Proof.
  intros Hk Hmd5 Hold Hdiff Hupto Hbody.
  assert (Hid : no_sep book_id = true).
  { apply book_ids_no_sep. by eapply list_elem_of_lookup_2. }
  assert (Hcheck : check_integrity (files w1) (archive_path root book_id) md5 = false).
  { rewrite (check_integrity_lookup (files w1) (files w))
      by (by eapply download_upto_frame).
    rewrite (check_integrity_file _ _ _ _ Hold). by apply String.eqb_neq. }
  eexists. split; [|split; [|split]]; cycle 3.
  - rewrite (download_split out root k book_id w w1 Hk Hupto).
    rewrite <- bind_assoc. unfold bind at 1.
    rewrite (download_book_unverified out root book_id md5 body w1 Hid Hmd5 Hbody Hcheck).
    reflexivity.
  - reflexivity.
  - cbn [files]. apply lookup_insert_eq.
  - reflexivity.
Qed.

Lemma mismatched_archive_refetched_witness :
  book_ids !! 1 = Some "200003967" /\
  zips_md5 !! archive_name "200003967" = Some "fa3100fd0da6a670c0e63aeeedef8e5c" /\
  files Scenario.stale_second !! archive_path "data" "200003967"
    = Some (list_byte_of_string "stale") /\
  md5_hex (H := Scenario.plain_digest) (list_byte_of_string "stale")
    <> "fa3100fd0da6a670c0e63aeeedef8e5c" /\
  fst (download_upto (H := Scenario.plain_digest) Scenario.serve_fresh "data" 1
         Scenario.stale_second) = Ok tt /\
  remote Scenario.serve_fresh (download_url "200003967")
    = Some (list_byte_of_string "fresh") /\
  exists written,
    files written !! archive_path "data" "200003967"
      = Some (list_byte_of_string "fresh") /\
    download (H := Scenario.plain_digest) Scenario.serve_fresh "data"
        Scenario.stale_second =
      (let* _ := extractall Scenario.serve_fresh (archive_path "data" "200003967")
                   (PyStr.replace ".zip" "" (archive_path "data" "200003967")) in
       let* _ := unlink (archive_path "data" "200003967") in
       for_each (drop 2 book_ids)
         (download_book (H := Scenario.plain_digest) Scenario.serve_fresh "data"))%cmd
        written.
Proof.
  assert (Hk : book_ids !! 1 = Some "200003967") by reflexivity.
  assert (Hmd5 : zips_md5 !! archive_name "200003967"
                 = Some "fa3100fd0da6a670c0e63aeeedef8e5c")
    by (vm_compute; reflexivity).
  assert (Hold : files Scenario.stale_second !! archive_path "data" "200003967"
                 = Some (list_byte_of_string "stale"))
    by (vm_compute; reflexivity).
  assert (Hdiff : md5_hex (H := Scenario.plain_digest) (list_byte_of_string "stale")
                  <> "fa3100fd0da6a670c0e63aeeedef8e5c")
    by (vm_compute; discriminate).
  assert (Hok : fst (download_upto (H := Scenario.plain_digest) Scenario.serve_fresh
                       "data" 1 Scenario.stale_second) = Ok tt)
    by (vm_compute; reflexivity).
  assert (Hupto : download_upto (H := Scenario.plain_digest) Scenario.serve_fresh
                    "data" 1 Scenario.stale_second
                  = (Ok tt, snd (download_upto (H := Scenario.plain_digest)
                                   Scenario.serve_fresh "data" 1 Scenario.stale_second))).
  { destruct (download_upto (H := Scenario.plain_digest) Scenario.serve_fresh
                "data" 1 Scenario.stale_second) as [r w1].
    cbn [fst snd] in *. by rewrite Hok. }
  assert (Hbody : remote Scenario.serve_fresh (download_url "200003967")
                  = Some (list_byte_of_string "fresh")) by reflexivity.
  repeat (split; [assumption|]).
  destruct (mismatched_archive_refetched (H := Scenario.plain_digest)
              Scenario.serve_fresh "data" 1 "200003967" _ _ _ Scenario.stale_second _
              Hk Hmd5 Hold Hdiff Hupto Hbody) as (written & _ & Hfile & _ & Hrun).
  exists written. exact (conj Hfile Hrun).
Defined.



(** When the raw folder is not there and cannot be made, [download]
    raises the error of [os.makedirs] before any request. *)
Example download_read_only :
  download (H := Scenario.plain_digest) Scenario.read_only "data" Scenario.nothing_yet
  = (Raise (OSError "data/raw"), Scenario.nothing_yet).
Proof. vm_compute. reflexivity. Qed.

(** An extraction that fails midway: the error comes out of
    [download], what was extracted before the failure stays beneath
    the extraction directory, and the archive stays with the fetched
    body. *)
Example truncated_extraction_leaves_both :
  fst (download (H := Scenario.plain_digest) Scenario.serve_truncated "data"
         Scenario.nothing_yet) = Raise (BadZipFile "data/raw/200003076.zip") /\
  files (snd (download (H := Scenario.plain_digest) Scenario.serve_truncated "data"
                Scenario.nothing_yet))
    = {[ "data/raw/200003076.zip" := list_byte_of_string "cut short";
         "data/raw/200003076/characters/U+3042/a.jpg" := list_byte_of_string "image" ]}.
Proof. split; vm_compute; reflexivity. Qed.
